(** * Initial transcription: the [iRNAP] state machine

    A shallow embedding of [model/initial_transcription.py].  The module
    defines one class, [iRNAP], whose instances are mutated in place by their
    methods; every method either returns or raises, and whatever it assigned
    before raising stays assigned.  Methods are therefore modelled as
    functions from the object's state to an outcome (a returned value or an
    exception), the object's state afterwards, and the lines printed. *)

From Stdlib Require Import ZArith Bool List String Ascii Lia.
From Stdlib Require Import DecimalString DecimalZ DecimalPos.
Import ListNotations.
Open Scope Z_scope.

(** ** The Python runtime, as far as the class uses it *)

Inductive Exn : Type :=
| AssertionError
| ZeroDivisionError
| IndexError
| AttributeError
| ValueError.

Inductive Outcome (A : Type) : Type :=
| Return (a : A)
| Raise (e : Exn).

Arguments Return {A} a.
Arguments Raise {A} e.

(** The attributes assigned by [__init__], in the order of the source.
    [__max_duplex_length] is the private attribute [self.__max_duplex_length]. *)
Record iRNAP : Type := mk_iRNAP {
  RNA_length : Z;
  pre_translocated : bool;
  post_translocated : bool;
  paused : bool;
  backtracked : bool;
  iplus1_site : Z;
  RNADNA_duplex_length : Z;
  scrunched_DNA_size : Z;
  free_5prime_RNA_length : Z;
  __max_duplex_length : Z
}.

(** Assignment to one attribute. *)
Definition set_RNA_length (v : Z) (o : iRNAP) : iRNAP :=
  mk_iRNAP v (pre_translocated o) (post_translocated o) (paused o)
    (backtracked o) (iplus1_site o) (RNADNA_duplex_length o)
    (scrunched_DNA_size o) (free_5prime_RNA_length o) (__max_duplex_length o).

Definition set_pre_translocated (v : bool) (o : iRNAP) : iRNAP :=
  mk_iRNAP (RNA_length o) v (post_translocated o) (paused o)
    (backtracked o) (iplus1_site o) (RNADNA_duplex_length o)
    (scrunched_DNA_size o) (free_5prime_RNA_length o) (__max_duplex_length o).

Definition set_post_translocated (v : bool) (o : iRNAP) : iRNAP :=
  mk_iRNAP (RNA_length o) (pre_translocated o) v (paused o)
    (backtracked o) (iplus1_site o) (RNADNA_duplex_length o)
    (scrunched_DNA_size o) (free_5prime_RNA_length o) (__max_duplex_length o).

Definition set_paused (v : bool) (o : iRNAP) : iRNAP :=
  mk_iRNAP (RNA_length o) (pre_translocated o) (post_translocated o) v
    (backtracked o) (iplus1_site o) (RNADNA_duplex_length o)
    (scrunched_DNA_size o) (free_5prime_RNA_length o) (__max_duplex_length o).

Definition set_backtracked (v : bool) (o : iRNAP) : iRNAP :=
  mk_iRNAP (RNA_length o) (pre_translocated o) (post_translocated o) (paused o)
    v (iplus1_site o) (RNADNA_duplex_length o)
    (scrunched_DNA_size o) (free_5prime_RNA_length o) (__max_duplex_length o).

Definition set_iplus1_site (v : Z) (o : iRNAP) : iRNAP :=
  mk_iRNAP (RNA_length o) (pre_translocated o) (post_translocated o) (paused o)
    (backtracked o) v (RNADNA_duplex_length o)
    (scrunched_DNA_size o) (free_5prime_RNA_length o) (__max_duplex_length o).

Definition set_RNADNA_duplex_length (v : Z) (o : iRNAP) : iRNAP :=
  mk_iRNAP (RNA_length o) (pre_translocated o) (post_translocated o) (paused o)
    (backtracked o) (iplus1_site o) v
    (scrunched_DNA_size o) (free_5prime_RNA_length o) (__max_duplex_length o).

Definition set_scrunched_DNA_size (v : Z) (o : iRNAP) : iRNAP :=
  mk_iRNAP (RNA_length o) (pre_translocated o) (post_translocated o) (paused o)
    (backtracked o) (iplus1_site o) (RNADNA_duplex_length o)
    v (free_5prime_RNA_length o) (__max_duplex_length o).

Definition set_free_5prime_RNA_length (v : Z) (o : iRNAP) : iRNAP :=
  mk_iRNAP (RNA_length o) (pre_translocated o) (post_translocated o) (paused o)
    (backtracked o) (iplus1_site o) (RNADNA_duplex_length o)
    (scrunched_DNA_size o) v (__max_duplex_length o).

(** What a call leaves behind: its outcome, the object as the call left it
    (also when it raised), and the lines it printed. *)
Record Res (A : Type) : Type := mkRes {
  outcome : Outcome A;
  final : iRNAP;
  printed : list string
}.

Arguments mkRes {A} outcome final printed.
Arguments outcome {A} r.
Arguments final {A} r.
Arguments printed {A} r.

(** A method body: a computation on [self]. *)
Definition M (A : Type) : Type := iRNAP -> Res A.

Definition ret {A : Type} (a : A) : M A :=
  fun self => mkRes (Return a) self [].

Definition raise {A : Type} (e : Exn) : M A :=
  fun self => mkRes (Raise e) self [].

Definition bind {A B : Type} (c : M A) (k : A -> M B) : M B :=
  fun self =>
    let r := c self in
    match outcome r with
    | Return a =>
        let r' := k a (final r) in
        mkRes (outcome r') (final r') (printed r ++ printed r')
    | Raise e => mkRes (Raise e) (final r) (printed r)
    end.

Declare Scope py_scope.
Delimit Scope py_scope with py.
Notation "x <- c ;; k" := (bind c (fun x => k))
  (at level 61, c at next level, right associativity) : py_scope.
Notation "c ;; k" := (bind c (fun _ => k))
  (at level 61, right associativity) : py_scope.
Open Scope py_scope.

(** [self.f] *)
Definition attr {A : Type} (f : iRNAP -> A) : M A :=
  fun self => mkRes (Return (f self)) self [].

(** [self.f = v] *)
Definition assign {A : Type} (setter : A -> iRNAP -> iRNAP) (v : A) : M unit :=
  fun self => mkRes (Return tt) (setter v self) [].

(** [print(line)] *)
Definition print (line : string) : M unit :=
  fun self => mkRes (Return tt) self [line].

(** [assert b] *)
Definition assert_ (b : bool) : M unit :=
  if b then ret tt else raise AssertionError.

(** [if b: body] without an [else]. *)
Definition when (b : bool) (body : M unit) : M unit :=
  if b then body else ret tt.

(** [x is False], for a flag [x]. *)
Definition is_False (x : bool) : bool := negb x.

(** [a / b] as a statement: only whether it raises matters to the class
    (every use is [1/0]). *)
Definition div_ (a b : Z) : M Z :=
  if b =? 0 then raise ZeroDivisionError else ret (a / b).

(** [a and b], [a or b]: the right operand is evaluated only when needed. *)
Definition and_ (a b : M bool) : M bool :=
  x <- a ;; if x then b else ret x.

Definition or_ (a b : M bool) : M bool :=
  x <- a ;; if x then ret x else b.

(** [its[i]] on a string: a negative index counts from the end; an index
    outside [-len, len) raises [IndexError]. *)
Definition str_index (its : string) (i : Z) : option string :=
  let n := Z.of_nat (String.length its) in
  let j := if i <? 0 then i + n else i in
  if (j <? 0) || (n <=? j) then None
  else match String.get (Z.to_nat j) its with
       | Some c => Some (String c EmptyString)
       | None => None
       end.

Definition getitem (its : string) (i : Z) : M string :=
  match str_index its i with
  | Some c => ret c
  | None => raise IndexError
  end.

(** ** The class [iRNAP] *)

(** [SanityCheck]: the assertions of the source, in its order. *)
Definition SanityCheck : M unit :=
  (bt <- attr backtracked ;;
   when bt
     (x <- attr pre_translocated ;; assert_ (is_False x) ;;
      y <- attr post_translocated ;; assert_ (is_False y) ;;
      z <- attr paused ;; assert_ (is_False z))) ;;
  (pa <- attr paused ;;
   when pa
     (x <- attr pre_translocated ;; assert_ (is_False x) ;;
      y <- attr post_translocated ;; assert_ (is_False y) ;;
      z <- attr backtracked ;; assert_ (is_False z))) ;;
  (po <- attr post_translocated ;;
   when po
     (x <- attr pre_translocated ;; assert_ (is_False x) ;;
      y <- attr backtracked ;; assert_ (is_False y) ;;
      z <- attr paused ;; assert_ (is_False z))) ;;
  (pr <- attr pre_translocated ;;
   when pr
     (x <- attr post_translocated ;; assert_ (is_False x) ;;
      y <- attr backtracked ;; assert_ (is_False y) ;;
      z <- attr paused ;; assert_ (is_False z))) ;;
  (n <- attr RNA_length ;; d <- attr RNADNA_duplex_length ;;
   assert_ (n >=? d)) ;;
  (sc <- attr scrunched_DNA_size ;; n <- attr RNA_length ;;
   assert_ (sc <? n)) ;;
  (f <- attr free_5prime_RNA_length ;; n <- attr RNA_length ;;
   assert_ (f <? n)) ;;
  (f <- attr free_5prime_RNA_length ;;
   when (f >? 0)
     (f' <- attr free_5prime_RNA_length ;;
      n <- attr RNA_length ;; d <- attr RNADNA_duplex_length ;;
      assert_ (f' =? n - d))) ;;
  (d <- attr RNADNA_duplex_length ;; m <- attr __max_duplex_length ;;
   when (d >? m)
     (f <- attr free_5prime_RNA_length ;; assert_ (f >? 0))).

(** [__init__]: the ten assignments, then [SanityCheck]; the arguments are in
    the order of the signature. *)
Definition __init__ (rna_length : Z)
    (pre_translocated post_translocated paused backtracked : bool)
    (iplus1_site RNADNA_duplex_length scrunched_DNA_size
       free_5prime_RNA_length max_duplex_length : Z) : Res unit :=
  SanityCheck
    (mk_iRNAP rna_length pre_translocated post_translocated paused backtracked
       iplus1_site RNADNA_duplex_length scrunched_DNA_size
       free_5prime_RNA_length max_duplex_length).

(** [iRNAP()]: every argument at its default. *)
Definition iRNAP_default : Res unit :=
  __init__ 2 true false false false 2 2 0 0 10.

(** [GetActiveSiteDinucleotide]:
    [its[self.iplus1_site-1] + its[self.iplus1_site]]. *)
Definition GetActiveSiteDinucleotide (its : string) : M string :=
  i <- attr iplus1_site ;;
  a <- getitem its (i - 1) ;;
  j <- attr iplus1_site ;;
  b <- getitem its j ;;
  ret (a ++ b)%string.

(** The names an instance of the class answers to: the attributes assigned
    by [__init__] (the private one under its mangled name) and the names
    bound in the class body. *)
Definition instance_attributes : list string :=
  ["RNA_length"; "pre_translocated"; "post_translocated"; "paused";
   "backtracked"; "iplus1_site"; "RNADNA_duplex_length";
   "scrunched_DNA_size"; "free_5prime_RNA_length";
   "_iRNAP__max_duplex_length"]%string.

Definition class_attributes : list string :=
  ["__init__"; "__repr__"; "SanityCheck"; "GetActiveSiteDinucleotide";
   "GetActiveSiteNucleotide"; "ReverseTranslocate"; "Translocate"; "Pause";
   "CanBackTrack"; "Backtrack"; "CanGrow"; "GrowRNA"]%string.

Definition has_attribute (name : string) : bool :=
  existsb (String.eqb name) (instance_attributes ++ class_attributes).

(** [self.<name>(its)]: the methods of one sequence argument that are bound
    when [GetActiveSiteNucleotide] runs its lookup; a name the instance does
    not answer to raises [AttributeError]. *)
Definition call_method_its (name : string) (its : string) : M string :=
  if negb (has_attribute name) then raise AttributeError
  else if String.eqb name "GetActiveSiteDinucleotide"
       then GetActiveSiteDinucleotide its
       else raise AttributeError.

(** [GetActiveSiteNucleotide]:
    [self.get_active_site_dinucleotide(its)[-1]]. *)
Definition GetActiveSiteNucleotide (its : string) : M string :=
  d <- call_method_its "get_active_site_dinucleotide" its ;;
  getitem d (-1).

Definition ReverseTranslocate : M unit :=
  SanityCheck ;;
  (pre <- attr pre_translocated ;;
   if pre
   then print "Was already pre-translocated!" ;; _ <- div_ 1 0 ;; ret tt
   else assign set_pre_translocated true ;;
        assign set_post_translocated false) ;;
  SanityCheck.

Definition Translocate : M unit :=
  SanityCheck ;;
  (post <- attr post_translocated ;;
   if post
   then print "Was already translocated!" ;; _ <- div_ 1 0 ;; ret tt
   else assign set_pre_translocated false ;;
        assign set_post_translocated true) ;;
  SanityCheck.

Definition Pause : M unit :=
  SanityCheck ;;
  (pa <- attr paused ;;
   if pa
   then print "Was already paused!" ;; _ <- div_ 1 0 ;; ret tt
   else pre <- attr pre_translocated ;;
        if pre
        then assign set_paused true ;;
             assign set_pre_translocated false
        else print "Must be pre-translocated to pause!" ;;
             _ <- div_ 1 0 ;; ret tt) ;;
  SanityCheck.

Definition CanBackTrack : M bool :=
  SanityCheck ;;
  or_ (attr paused) (attr backtracked).

Definition Backtrack : M unit :=
  SanityCheck ;;
  (can <- CanBackTrack ;;
   if can
   then (pa <- attr paused ;;
         when pa (assign set_paused false ;; assign set_backtracked true)) ;;
        (i <- attr iplus1_site ;; assign set_iplus1_site (i - 1)) ;;
        (sc <- attr scrunched_DNA_size ;;
         assign set_scrunched_DNA_size (sc - 1)) ;;
        (d <- attr RNADNA_duplex_length ;; m <- attr __max_duplex_length ;;
         when (d <=? m)
           (d' <- attr RNADNA_duplex_length ;;
            assign set_RNADNA_duplex_length (d' - 1))) ;;
        (f <- attr free_5prime_RNA_length ;;
         when (f >? 0)
           (f' <- attr free_5prime_RNA_length ;;
            assign set_free_5prime_RNA_length (f' - 1)))
   else print "Was not in a state from which to backtrack!" ;;
        _ <- div_ 1 0 ;; ret tt) ;;
  SanityCheck.

Definition CanGrow : M bool :=
  excluded_from_growing <-
    and_ (and_ (attr pre_translocated) (attr backtracked)) (attr paused) ;;
  c <- and_ (ret excluded_from_growing) (attr post_translocated) ;;
  if c then ret false else ret true.

Definition GrowRNA : M unit :=
  SanityCheck ;;
  (can <- CanGrow ;;
   if can
   then (i <- attr iplus1_site ;; assign set_iplus1_site (i + 1)) ;;
        (n <- attr RNA_length ;; assign set_RNA_length (n + 1)) ;;
        (sc <- attr scrunched_DNA_size ;;
         assign set_scrunched_DNA_size (sc + 1)) ;;
        (n <- attr RNA_length ;; m <- attr __max_duplex_length ;;
         when (n <=? m)
           (n' <- attr RNA_length ;; assign set_RNADNA_duplex_length n')) ;;
        (d <- attr RNADNA_duplex_length ;; m <- attr __max_duplex_length ;;
         when (d =? m)
           (f <- attr free_5prime_RNA_length ;;
            assign set_free_5prime_RNA_length (f + 1)))
   else print "Must be post-translocated to grow RNA!" ;;
        _ <- div_ 1 0 ;; ret tt) ;;
  SanityCheck.

(** ** Sequences of transitions, as a driving program issues them *)

Inductive Transition : Type :=
| T_Translocate
| T_ReverseTranslocate
| T_Pause
| T_Backtrack
| T_GrowRNA.

Definition call (t : Transition) : M unit :=
  match t with
  | T_Translocate => Translocate
  | T_ReverseTranslocate => ReverseTranslocate
  | T_Pause => Pause
  | T_Backtrack => Backtrack
  | T_GrowRNA => GrowRNA
  end.

(** The calls one after the other; the first exception ends the run, as an
    uncaught exception ends the program. *)
Fixpoint run (ts : list Transition) : M unit :=
  match ts with
  | [] => ret tt
  | t :: rest => call t ;; run rest
  end.

(** The [__main__] block up to its [print]. *)
Definition main_transitions : list Transition :=
  [T_GrowRNA; T_Translocate; T_ReverseTranslocate; T_Pause; T_Backtrack].

Definition iRNAP0 : iRNAP := mk_iRNAP 2 true false false false 2 2 0 0 10.

(** ** Validity *)

(** A state is valid when [SanityCheck] returns on it. *)
Definition valid (s : iRNAP) : Prop :=
  SanityCheck s = mkRes (Return tt) s [].

(** How many of the four mode flags are set. *)
Definition modes_set (s : iRNAP) : nat :=
  (Nat.b2n (pre_translocated s) + Nat.b2n (post_translocated s)
   + Nat.b2n (paused s) + Nat.b2n (backtracked s))%nat.

(** The conjunction of everything [SanityCheck] asserts. *)
Definition sane (s : iRNAP) : bool :=
  (modes_set s <=? 1)%nat
  && (RNA_length s >=? RNADNA_duplex_length s)
  && (scrunched_DNA_size s <? RNA_length s)
  && (free_5prime_RNA_length s <? RNA_length s)
  && implb (free_5prime_RNA_length s >? 0)
       (free_5prime_RNA_length s =? RNA_length s - RNADNA_duplex_length s)
  && implb (RNADNA_duplex_length s >? __max_duplex_length s)
       (free_5prime_RNA_length s >? 0).

(** The six invariants in the words of the design document, with the mode
    as exactly one of the four flags. *)
Record spec_invariants (s : iRNAP) : Prop := {
  inv_mode : modes_set s = 1%nat;
  inv_duplex : RNA_length s >= RNADNA_duplex_length s;
  inv_scrunched : scrunched_DNA_size s < RNA_length s;
  inv_free : free_5prime_RNA_length s < RNA_length s;
  inv_overhang :
    free_5prime_RNA_length s > 0 ->
    free_5prime_RNA_length s = RNA_length s - RNADNA_duplex_length s;
  inv_saturated :
    RNADNA_duplex_length s > __max_duplex_length s ->
    free_5prime_RNA_length s > 0
}.

(** The state each transition has built when it reaches its closing
    [SanityCheck]. *)
Definition translocated (s : iRNAP) : iRNAP :=
  set_post_translocated true (set_pre_translocated false s).

Definition reverse_translocated (s : iRNAP) : iRNAP :=
  set_post_translocated false (set_pre_translocated true s).

Definition pausing (s : iRNAP) : iRNAP :=
  set_pre_translocated false (set_paused true s).

Definition backtracking (s : iRNAP) : iRNAP :=
  mk_iRNAP (RNA_length s) (pre_translocated s) (post_translocated s)
    false true
    (iplus1_site s - 1)
    (if RNADNA_duplex_length s <=? __max_duplex_length s
     then RNADNA_duplex_length s - 1 else RNADNA_duplex_length s)
    (scrunched_DNA_size s - 1)
    (if free_5prime_RNA_length s >? 0
     then free_5prime_RNA_length s - 1 else free_5prime_RNA_length s)
    (__max_duplex_length s).

Definition new_duplex (s : iRNAP) : Z :=
  if RNA_length s + 1 <=? __max_duplex_length s
  then RNA_length s + 1 else RNADNA_duplex_length s.

Definition growing (s : iRNAP) : iRNAP :=
  mk_iRNAP (RNA_length s + 1) (pre_translocated s) (post_translocated s)
    (paused s) (backtracked s)
    (iplus1_site s + 1)
    (new_duplex s)
    (scrunched_DNA_size s + 1)
    (if new_duplex s =? __max_duplex_length s
     then free_5prime_RNA_length s + 1 else free_5prime_RNA_length s)
    (__max_duplex_length s).

(** The guard each transition tests before it touches the object: where it
    is false the transition prints its diagnostic and divides by zero. *)
Definition legal (t : Transition) (s : iRNAP) : bool :=
  match t with
  | T_Translocate => negb (post_translocated s)
  | T_ReverseTranslocate => negb (pre_translocated s)
  | T_Pause => negb (paused s) && pre_translocated s
  | T_Backtrack => paused s || backtracked s
  | T_GrowRNA =>
      negb (pre_translocated s && backtracked s && paused s
            && post_translocated s)
  end.

(** The outcome after each call of a run, up to and including the first call
    that raises. *)
Fixpoint trace (ts : list Transition) (s : iRNAP) : list (Res unit) :=
  match ts with
  | [] => []
  | t :: rest =>
      let r := call t s in
      r :: match outcome r with
           | Return _ => trace rest (final r)
           | Raise _ => []
           end
  end.

(** Every call of the run is issued in a state that passes its guard. *)
Fixpoint legal_run (ts : list Transition) (s : iRNAP) : Prop :=
  match ts with
  | [] => True
  | t :: rest => legal t s = true /\ legal_run rest (final (call t s))
  end.

(** What the body of each transition makes of the object when its guard
    passes, and what it prints when the guard fails. *)
Definition effect (t : Transition) (s : iRNAP) : iRNAP :=
  match t with
  | T_Translocate => translocated s
  | T_ReverseTranslocate => reverse_translocated s
  | T_Pause => pausing s
  | T_Backtrack => backtracking s
  | T_GrowRNA => growing s
  end.

Definition diagnostic (t : Transition) (s : iRNAP) : string :=
  match t with
  | T_Translocate => "Was already translocated!"
  | T_ReverseTranslocate => "Was already pre-translocated!"
  | T_Pause =>
      if paused s then "Was already paused!"
      else "Must be pre-translocated to pause!"
  | T_Backtrack => "Was not in a state from which to backtrack!"
  | T_GrowRNA => "Must be post-translocated to grow RNA!"
  end.

(** The integers from which growth passes the closing assertions, the step
    that brings the transcript to [max_duplex_length] set aside: below
    [max_duplex_length] no positive free 5' end; beyond it, with the duplex
    at [max_duplex_length], a free end that is not 0 or a duplex as long as
    the transcript, and with any other duplex no positive free end. *)
Definition growable (s : iRNAP) : bool :=
  ((RNA_length s + 1 <? __max_duplex_length s)
   && (free_5prime_RNA_length s <=? 0))
  || ((__max_duplex_length s <? RNA_length s + 1)
      && (RNADNA_duplex_length s =? __max_duplex_length s)
      && (negb (free_5prime_RNA_length s =? 0)
          || (RNA_length s =? RNADNA_duplex_length s)))
  || ((__max_duplex_length s <? RNA_length s + 1)
      && negb (RNADNA_duplex_length s =? __max_duplex_length s)
      && (free_5prime_RNA_length s <=? 0)).

(** The states from which each transition is sure to complete: the mode it
    is written for and, for the two that move along the template, integers
    that keep clear of the closing assertions. *)
Definition admissible (t : Transition) (s : iRNAP) : bool :=
  match t with
  | T_Translocate => pre_translocated s
  | T_ReverseTranslocate => post_translocated s
  | T_Pause => pre_translocated s
  | T_Backtrack =>
      (paused s || backtracked s)
      && (free_5prime_RNA_length s <=? 1)
      && (RNADNA_duplex_length s <=? __max_duplex_length s)
  | T_GrowRNA => growable s
  end.

Fixpoint admissible_run (ts : list Transition) (s : iRNAP) : Prop :=
  match ts with
  | [] => True
  | t :: rest =>
      admissible t s = true /\ admissible_run rest (final (call t s))
  end.

(** The object with other mode flags and the same integers. *)
Definition with_mode (pre post pa bt : bool) (s : iRNAP) : iRNAP :=
  set_backtracked bt
    (set_paused pa (set_post_translocated post (set_pre_translocated pre s))).

(** How often a run grows the transcript and how often it backtracks. *)
Definition is_GrowRNA (t : Transition) : bool :=
  match t with T_GrowRNA => true | _ => false end.

Definition is_Backtrack (t : Transition) : bool :=
  match t with T_Backtrack => true | _ => false end.

Definition calls_of (p : Transition -> bool) (ts : list Transition) : Z :=
  Z.of_nat (List.length (filter p ts)).

(** What a run has reached when its last transition returned: the closing
    check passed, and a duplex short of [max_duplex_length] carries no free
    5' end. *)
Definition settled (s : iRNAP) : Prop :=
  sane s = true
  /\ (RNADNA_duplex_length s < __max_duplex_length s ->
      free_5prime_RNA_length s <= 0).

(** ** Rendering *)

(** The characters written [\t] and [\n] in the source. *)
Definition TAB : ascii := "009"%char.
Definition NL : ascii := "010"%char.

(** The decimal digits of an integer, with a minus sign when it is
    negative. *)
Definition str_of_int (z : Z) : string :=
  NilZero.string_of_int (Z.to_int z).

Definition decimal_digits (z : Z) : nat :=
  String.length (str_of_int (Z.abs z)).

(** The interpreter's guard on converting an integer to decimal text.
    [int_max_str_digits] is the interpreter's setting of that name: 4300
    unless changed, 0 where there is no limit.  A text of more than 640
    characters, sign included, whose digits outnumber a non-zero limit is
    refused with [ValueError]. *)
Definition too_long (int_max_str_digits : nat) (z : Z) : bool :=
  (640 <? decimal_digits z + (if (z <? 0)%Z then 1 else 0))%nat
  && (0 <? int_max_str_digits)%nat
  && (int_max_str_digits <? decimal_digits z)%nat.

(** The format string of [__repr__] with its four fields filled in. *)
Definition format_repr (a b c d : Z) : string :=
  ("RNA-len:" ++ String TAB (str_of_int a ++ String NL
   ("Duplex-len:" ++ String TAB (str_of_int b ++ String NL
   ("Scrunched-size:" ++ String TAB (str_of_int c ++ String NL
   ("iplus1_pos:" ++ String TAB (str_of_int d ++ String NL
   (String NL EmptyString)))))))))%string.

(** [strs.format(a, b, c, d)]: raises when one of the four integers is
    refused. *)
Definition str_format (int_max_str_digits : nat) (a b c d : Z) : M string :=
  if too_long int_max_str_digits a || too_long int_max_str_digits b
     || too_long int_max_str_digits c || too_long int_max_str_digits d
  then raise ValueError
  else ret (format_repr a b c d).

(** [__repr__]: the four formatted integers, then one line for each mode
    flag that is set, in the order the source tests them. *)
Definition __repr__ (int_max_str_digits : nat) : M string :=
  n <- attr RNA_length ;;
  d <- attr RNADNA_duplex_length ;;
  sc <- attr scrunched_DNA_size ;;
  i <- attr iplus1_site ;;
  strs <- str_format int_max_str_digits n d sc i ;;
  po <- attr post_translocated ;;
  let strs :=
    if po then (strs ++ "Is POST-translocated" ++ String NL "")%string
    else strs in
  pr <- attr pre_translocated ;;
  let strs :=
    if pr then (strs ++ "Is PRE-translocated" ++ String NL "")%string
    else strs in
  pa <- attr paused ;;
  let strs :=
    if pa then (strs ++ "Is paused" ++ String NL "")%string else strs in
  bt <- attr backtracked ;;
  let strs :=
    if bt then (strs ++ "Is backtracked" ++ String NL "")%string else strs in
  ret strs.

(** Whether [__repr__] is refused one of the integers it formats. *)
Definition refused (int_max_str_digits : nat) (s : iRNAP) : bool :=
  too_long int_max_str_digits (RNA_length s)
  || too_long int_max_str_digits (RNADNA_duplex_length s)
  || too_long int_max_str_digits (scrunched_DNA_size s)
  || too_long int_max_str_digits (iplus1_site s).

(** A string in which the character [c] does not occur. *)
Fixpoint lacks (c : ascii) (u : string) : Prop :=
  match u with
  | EmptyString => True
  | String a rest => a <> c /\ lacks c rest
  end.

(** The mode lines of [__repr__] on their own. *)
Definition mode_lines (pre post pa bt : bool) : string :=
  ((if post then "Is POST-translocated" ++ String NL "" else "")
   ++ (if pre then "Is PRE-translocated" ++ String NL "" else "")
   ++ (if pa then "Is paused" ++ String NL "" else "")
   ++ (if bt then "Is backtracked" ++ String NL "" else ""))%string.

(** * Properties *)

Section Monad.

Lemma Res_eta {A : Type} (r : Res A) :
  mkRes (outcome r) (final r) (printed r) = r.
Proof. destruct r; reflexivity. Qed.

Lemma bind_returned {A B : Type} (c : M A) (k : A -> M B) s a s' :
  c s = mkRes (Return a) s' [] -> bind c k s = k a s'.
Proof.
  intros H. unfold bind. rewrite H. cbn. apply Res_eta.
Qed.

Lemma bind_raised {A B : Type} (c : M A) (k : A -> M B) s e s' out :
  c s = mkRes (Raise e) s' out -> bind c k s = mkRes (Raise e) s' out.
Proof.
  intros H. unfold bind. rewrite H. reflexivity.
Qed.

Lemma bind_assoc {A B C : Type} (c : M A) (k : A -> M B) (k' : B -> M C) s :
  bind (bind c k) k' s = bind c (fun a => bind (k a) k') s.
Proof.
  unfold bind. destruct (c s) as [[a|e] s1 out1]; cbn; [|reflexivity].
  destruct (k a s1) as [[b|e] s2 out2]; cbn; [|reflexivity].
  rewrite app_assoc. reflexivity.
Qed.

Lemma bind_attr {A B : Type} (f : iRNAP -> A) (k : A -> M B) s :
  bind (attr f) k s = k (f s) s.
Proof. apply bind_returned. reflexivity. Qed.

Lemma bind_assert {B : Type} (b : bool) (k : unit -> M B) s :
  bind (assert_ b) k s =
  if b then k tt s else mkRes (Raise AssertionError) s [].
Proof.
  destruct b; [apply bind_returned|apply bind_raised]; reflexivity.
Qed.

Lemma bind_when {B : Type} (b : bool) (body : M unit) (k : unit -> M B) s :
  bind (when b body) k s = if b then bind body k s else k tt s.
Proof.
  destruct b; [reflexivity|]. apply bind_returned. reflexivity.
Qed.

End Monad.

(** Runs the statement at the head of a method body. *)
Ltac head_step :=
first [ rewrite bind_assoc | rewrite bind_attr | rewrite bind_assert
      | rewrite bind_when ];
cbn [RNA_length pre_translocated post_translocated paused backtracked
     iplus1_site RNADNA_duplex_length scrunched_DNA_size
     free_5prime_RNA_length __max_duplex_length is_False negb].

Ltac head_steps := repeat head_step.

(** Runs a method body as far as the tests on integers allow. *)
Ltac run_body :=
cbv -[Z.geb Z.ltb Z.gtb Z.eqb Z.leb Z.sub Z.add]; try reflexivity.

Section SanityCheck.

(** [sane] in the form arithmetic tactics work on. *)
Lemma sane_true_iff s :
  sane s = true <->
  (modes_set s <= 1)%nat
  /\ RNA_length s >= RNADNA_duplex_length s
  /\ scrunched_DNA_size s < RNA_length s
  /\ free_5prime_RNA_length s < RNA_length s
  /\ (free_5prime_RNA_length s > 0 ->
      free_5prime_RNA_length s = RNA_length s - RNADNA_duplex_length s)
  /\ (RNADNA_duplex_length s > __max_duplex_length s ->
      free_5prime_RNA_length s > 0).
Proof.
  unfold sane.
  rewrite !andb_true_iff, !implb_true_iff, Nat.leb_le, Z.geb_le,
    !Z.ltb_lt, !Z.gtb_gt, Z.eqb_eq.
  intuition lia.
Qed.

(** [SanityCheck] never changes the object and never prints; it returns
    exactly on the sane states. *)
Lemma SanityCheck_sane s :
  SanityCheck s =
  if sane s then mkRes (Return tt) s [] else mkRes (Raise AssertionError) s [].
Proof.
  destruct s as [n pre post pa bt i d sc f m].
  unfold SanityCheck, sane, modes_set.
  cbn [RNA_length pre_translocated post_translocated paused backtracked
       iplus1_site RNADNA_duplex_length scrunched_DNA_size
       free_5prime_RNA_length __max_duplex_length].
  destruct pre, post, pa, bt; head_steps; try reflexivity;
    cbn [Nat.b2n Nat.add Nat.leb andb];
    destruct (n >=? d); head_steps; try reflexivity;
    destruct (sc <? n); head_steps; try reflexivity;
    destruct (f <? n); head_steps; try reflexivity;
    destruct (f >? 0) eqn:Ef; head_steps; try reflexivity;
    try (destruct (f =? n - d); head_steps; try reflexivity);
    unfold when, assert_;
    destruct (d >? m); head_steps; rewrite ?Ef; reflexivity.
Qed.

Lemma valid_sane s : valid s <-> sane s = true.
Proof.
  unfold valid. rewrite SanityCheck_sane.
  destruct (sane s); split; intros H; try reflexivity; discriminate.
Qed.

Lemma spec_invariants_valid s : spec_invariants s -> valid s.
Proof.
  intros [H1 H2 H3 H4 H5 H6]. apply valid_sane, sane_true_iff.
  repeat split; try assumption. lia.
Qed.

Lemma valid_spec_invariants s :
  valid s -> modes_set s = 1%nat -> spec_invariants s.
Proof.
  intros H Hm. apply valid_sane, sane_true_iff in H.
  destruct H as (_ & H2 & H3 & H4 & H5 & H6). now constructor.
Qed.

Lemma SanityCheck_then {B : Type} (k : unit -> M B) s :
  bind SanityCheck k s =
  if sane s then k tt s else mkRes (Raise AssertionError) s [].
Proof.
  destruct (sane s) eqn:E.
  - apply bind_returned. rewrite SanityCheck_sane, E. reflexivity.
  - apply bind_raised. rewrite SanityCheck_sane, E. reflexivity.
Qed.

End SanityCheck.

(** ** Each transition in closed form *)

Section Transitions.

Lemma Translocate_eq s :
  Translocate s =
  if sane s then
    if post_translocated s
    then mkRes (Raise ZeroDivisionError) s ["Was already translocated!"%string]
    else SanityCheck (translocated s)
  else mkRes (Raise AssertionError) s [].
Proof.
  unfold Translocate. rewrite SanityCheck_then.
  destruct (sane s); [|reflexivity].
  destruct (post_translocated s) eqn:E.
  - apply bind_raised. unfold bind, attr. cbn. rewrite E. reflexivity.
  - rewrite (bind_returned _ _ s tt (translocated s)); [reflexivity|].
    unfold bind, attr. cbn. rewrite E. reflexivity.
Qed.

Lemma ReverseTranslocate_eq s :
  ReverseTranslocate s =
  if sane s then
    if pre_translocated s
    then mkRes (Raise ZeroDivisionError) s
           ["Was already pre-translocated!"%string]
    else SanityCheck (reverse_translocated s)
  else mkRes (Raise AssertionError) s [].
Proof.
  unfold ReverseTranslocate. rewrite SanityCheck_then.
  destruct (sane s); [|reflexivity].
  destruct (pre_translocated s) eqn:E.
  - apply bind_raised. unfold bind, attr. cbn. rewrite E. reflexivity.
  - rewrite (bind_returned _ _ s tt (reverse_translocated s)); [reflexivity|].
    unfold bind, attr. cbn. rewrite E. reflexivity.
Qed.

Lemma Pause_eq s :
  Pause s =
  if sane s then
    if paused s
    then mkRes (Raise ZeroDivisionError) s ["Was already paused!"%string]
    else if pre_translocated s
         then SanityCheck (pausing s)
         else mkRes (Raise ZeroDivisionError) s
                ["Must be pre-translocated to pause!"%string]
  else mkRes (Raise AssertionError) s [].
Proof.
  unfold Pause. rewrite SanityCheck_then.
  destruct (sane s); [|reflexivity].
  destruct (paused s) eqn:E; [|destruct (pre_translocated s) eqn:E'].
  - apply bind_raised. unfold bind, attr. cbn. rewrite E. reflexivity.
  - rewrite (bind_returned _ _ s tt (pausing s)); [reflexivity|].
    unfold bind, attr. cbn. rewrite E. cbn. rewrite E'. reflexivity.
  - apply bind_raised. unfold bind, attr. cbn. rewrite E. cbn. rewrite E'.
    reflexivity.
Qed.

Lemma CanBackTrack_eq s :
  CanBackTrack s =
  if sane s then mkRes (Return (paused s || backtracked s)) s []
  else mkRes (Raise AssertionError) s [].
Proof.
  unfold CanBackTrack. rewrite SanityCheck_then.
  destruct (sane s); [|reflexivity].
  unfold or_, bind, attr. cbn. destruct (paused s); reflexivity.
Qed.

(** [CanGrow] reads the four flags and nothing else. *)
Lemma CanGrow_eq s :
  CanGrow s =
  mkRes (Return (negb (pre_translocated s && backtracked s && paused s
                       && post_translocated s))) s [].
Proof.
  destruct s as [n pre post pa bt i d sc f m].
  destruct pre, post, pa, bt; reflexivity.
Qed.

Lemma sane_legal_GrowRNA s : sane s = true -> legal T_GrowRNA s = true.
Proof.
  destruct s as [n pre post pa bt i d sc f m].
  destruct pre, post, pa, bt; cbn; intros H; try reflexivity; discriminate.
Qed.

Lemma Backtrack_eq s :
  Backtrack s =
  if sane s then
    if paused s || backtracked s
    then SanityCheck (backtracking s)
    else mkRes (Raise ZeroDivisionError) s
           ["Was not in a state from which to backtrack!"%string]
  else mkRes (Raise AssertionError) s [].
Proof.
  unfold Backtrack. rewrite SanityCheck_then.
  destruct (sane s) eqn:Es; [|reflexivity].
  destruct (paused s || backtracked s) eqn:E.
  - rewrite (bind_returned _ _ s tt (backtracking s)); [reflexivity|].
    rewrite (bind_returned _ _ s true s)
      by (rewrite CanBackTrack_eq, Es, E; reflexivity).
    destruct s as [n pre post pa bt i d sc f m]. cbn in E.
    destruct pa, bt; try discriminate; cbn in Es; try discriminate;
      unfold backtracking; run_body;
      destruct (d <=? m); run_body; destruct (f >? 0); run_body.
  - apply bind_raised.
    rewrite (bind_returned _ _ s false s)
      by (rewrite CanBackTrack_eq, Es, E; reflexivity).
    reflexivity.
Qed.

Lemma GrowRNA_eq s :
  GrowRNA s =
  if sane s then SanityCheck (growing s)
  else mkRes (Raise AssertionError) s [].
Proof.
  unfold GrowRNA. rewrite SanityCheck_then.
  destruct (sane s) eqn:Es; [|reflexivity].
  rewrite (bind_returned _ _ s tt (growing s)); [reflexivity|].
  rewrite (bind_returned _ _ s true s).
  - destruct s as [n pre post pa bt i d sc f m].
    unfold growing, new_duplex. run_body.
    destruct (n + 1 <=? m); run_body;
      match goal with |- context [?a =? m] => destruct (a =? m) end;
      run_body.
  - rewrite CanGrow_eq. apply sane_legal_GrowRNA in Es. cbn in Es.
    rewrite Es. reflexivity.
Qed.

End Transitions.

Section Calls.

(** Every transition has the same shape: opening check, guard, body,
    closing check. *)
Lemma call_eq t s :
  call t s =
  if sane s then
    if legal t s then SanityCheck (effect t s)
    else mkRes (Raise ZeroDivisionError) s [diagnostic t s]
  else mkRes (Raise AssertionError) s [].
Proof.
  destruct t; cbn [call legal effect diagnostic].
  - rewrite Translocate_eq. destruct (sane s), (post_translocated s);
      reflexivity.
  - rewrite ReverseTranslocate_eq. destruct (sane s), (pre_translocated s);
      reflexivity.
  - rewrite Pause_eq.
    destruct (sane s), (paused s), (pre_translocated s); reflexivity.
  - rewrite Backtrack_eq. reflexivity.
  - rewrite GrowRNA_eq. destruct (sane s) eqn:Es; [|reflexivity].
    apply sane_legal_GrowRNA in Es. cbn [legal] in Es. rewrite Es.
    reflexivity.
Qed.

(** A transition that returns has passed both checks and its guard, has
    printed nothing and leaves the state its body built. *)
Lemma call_returns t s :
  outcome (call t s) = Return tt ->
  call t s = mkRes (Return tt) (effect t s) []
  /\ sane s = true /\ legal t s = true /\ sane (effect t s) = true.
Proof.
  rewrite call_eq, SanityCheck_sane.
  destruct (sane s); [|discriminate].
  destruct (legal t s); [|discriminate].
  destruct (sane (effect t s)); [|discriminate].
  intros _. repeat split.
Qed.

Lemma call_sane_returns t s :
  sane s = true -> legal t s = true -> sane (effect t s) = true ->
  call t s = mkRes (Return tt) (effect t s) [].
Proof.
  intros H1 H2 H3. rewrite call_eq, H1, H2, SanityCheck_sane, H3.
  reflexivity.
Qed.

Lemma run_cons_returns t ts s :
  outcome (run (t :: ts) s) = Return tt ->
  outcome (call t s) = Return tt /\ run (t :: ts) s = run ts (effect t s).
Proof.
  cbn [run]. intros H.
  destruct (outcome (call t s)) as [[]|e] eqn:E.
  - split; [reflexivity|].
    apply call_returns in E. destruct E as (E & _).
    exact (bind_returned (call t) (fun _ => run ts) s tt _ E).
  - unfold bind in H. rewrite E in H. discriminate.
Qed.

Lemma run_app_returns ts us s :
  outcome (run (ts ++ us) s) = Return tt ->
  outcome (run ts s) = Return tt
  /\ run (ts ++ us) s = run us (final (run ts s)).
Proof.
  revert s. induction ts as [|t ts IH]; intros s H.
  - split; reflexivity.
  - rewrite <- app_comm_cons in H.
    destruct (run_cons_returns _ _ _ H) as (Hc & Hr).
    rewrite Hr in H. destruct (IH _ H) as (H1 & H2).
    assert (Ht : run (t :: ts) s = run ts (effect t s)).
    { apply call_returns in Hc. destruct Hc as (Hc & _).
      exact (bind_returned (call t) (fun _ => run ts) s tt _ Hc). }
    rewrite Ht. split; [exact H1|].
    rewrite <- app_comm_cons, Hr. exact H2.
Qed.

End Calls.

(** ** The default object and the saturation scenario *)

Section Saturation.

Lemma iRNAP_default_eq : iRNAP_default = mkRes (Return tt) iRNAP0 [].
Proof. reflexivity. Qed.

Lemma main_transitions_run :
  run main_transitions iRNAP0 =
  mkRes (Return tt) (mk_iRNAP 3 false false false true 2 2 0 0 10) [].
Proof. reflexivity. Qed.

(** C1.  From the default object the first seven [GrowRNA] calls return,
    taking the duplex from 3 to 9 with no free 5' end.  The eighth call is
    the one that brings the duplex to 10 and the free end to 1; with the
    transcript at 10 too, its closing [SanityCheck] finds
    [1 <> 10 - 10] and raises [AssertionError], so the call does not
    complete in a valid state.  The object it leaves behind fails the
    opening check of every later transition, which raises without
    changing it: the free end never grows further. *)
Theorem GrowRNA_saturation_raises :
  map (fun k => run (repeat T_GrowRNA k) iRNAP0) (seq 1 7) =
  map (fun n => mkRes (Return tt)
                  (mk_iRNAP n true false false false n n (n - 2) 0 10) [])
      [3; 4; 5; 6; 7; 8; 9]
  /\ GrowRNA (mk_iRNAP 9 true false false false 9 9 7 0 10) =
     mkRes (Raise AssertionError)
       (mk_iRNAP 10 true false false false 10 10 8 1 10) []
  /\ run (repeat T_GrowRNA 8) iRNAP0 =
     mkRes (Raise AssertionError)
       (mk_iRNAP 10 true false false false 10 10 8 1 10) []
  /\ valid (mk_iRNAP 9 true false false false 9 9 7 0 10)
  /\ ~ valid (mk_iRNAP 10 true false false false 10 10 8 1 10)
  /\ forall t,
       call t (mk_iRNAP 10 true false false false 10 10 8 1 10) =
       mkRes (Raise AssertionError)
         (mk_iRNAP 10 true false false false 10 10 8 1 10) [].
Proof.
  split; [reflexivity|]. split; [reflexivity|]. split; [reflexivity|].
  split; [reflexivity|]. split.
  - intros H. apply valid_sane in H. discriminate.
  - intros t. rewrite call_eq. reflexivity.
Qed.

End Saturation.

(** ** Active-site lookup *)

Section ActiveSite.

Lemma str_index_beyond its i :
  Z.of_nat (String.length its) <= i -> str_index its i = None.
Proof.
  intros H. unfold str_index.
  destruct (Z.ltb_spec i 0) as [Hn|Hn]; [lia|].
  destruct (Z.ltb_spec i 0) as [Hn'|_]; [lia|].
  destruct (Z.leb_spec (Z.of_nat (String.length its)) i); [reflexivity|lia].
Qed.

Lemma get_active_site_dinucleotide_unbound :
  has_attribute "get_active_site_dinucleotide" = false.
Proof. reflexivity. Qed.

(** C3.  [GetActiveSiteNucleotide] looks up
    [self.get_active_site_dinucleotide], a name the class does not bind
    (the method is [GetActiveSiteDinucleotide]): for every object and
    every sequence it raises [AttributeError] and returns no character,
    also where the dinucleotide lookup itself succeeds, as on the default
    object with the sequence ATG. *)
Theorem GetActiveSiteNucleotide_raises :
  (forall its s,
     GetActiveSiteNucleotide its s = mkRes (Raise AttributeError) s [])
  /\ GetActiveSiteDinucleotide "ATG" iRNAP0 =
     mkRes (Return "TG"%string) iRNAP0 []
  /\ str_index "TG" (-1) = Some "G"%string.
Proof.
  split; [|split; reflexivity].
  intros its s. apply bind_raised. reflexivity.
Qed.

(** C7.  On a sequence of fewer than [iplus1_site + 1] characters
    [GetActiveSiteDinucleotide] raises [IndexError], leaves the object as
    it was, and returns no string at all: the lookup at [iplus1_site]
    lies beyond the end whatever the lookup at [iplus1_site - 1] found,
    so no index counted from the end can make the call succeed. *)
Theorem GetActiveSiteDinucleotide_short its s :
  Z.of_nat (String.length its) < iplus1_site s + 1 ->
  GetActiveSiteDinucleotide its s = mkRes (Raise IndexError) s []
  /\ forall d, outcome (GetActiveSiteDinucleotide its s) <> Return d.
Proof.
  intros H.
  assert (E : GetActiveSiteDinucleotide its s = mkRes (Raise IndexError) s []).
  { unfold GetActiveSiteDinucleotide, bind, attr, getitem. cbn.
    destruct (str_index its (iplus1_site s - 1)) as [a|]; cbn.
    - rewrite str_index_beyond by lia. reflexivity.
    - reflexivity. }
  split; [exact E|]. intros d. rewrite E. discriminate.
Qed.

Lemma GetActiveSiteDinucleotide_short_witness :
  Z.of_nat (String.length "AT") < iplus1_site iRNAP0 + 1
  /\ GetActiveSiteDinucleotide "AT" iRNAP0 =
     mkRes (Raise IndexError) iRNAP0 [].
Proof.
  split; [reflexivity|].
  apply (GetActiveSiteDinucleotide_short "AT" iRNAP0).
  reflexivity.
Defined.

(** Where the sequence is long enough and [iplus1_site] is not positive,
    the lookup does count from the end. *)
Lemma GetActiveSiteDinucleotide_wraps :
  GetActiveSiteDinucleotide "AT" (set_iplus1_site 0 iRNAP0) =
  mkRes (Return "TA"%string) (set_iplus1_site 0 iRNAP0) [].
Proof. reflexivity. Qed.

End ActiveSite.

(** ** Single transitions *)

Section Single.

Lemma valid_modes s : valid s -> (modes_set s <= 1)%nat.
Proof.
  intros H. apply valid_sane, sane_true_iff in H. tauto.
Qed.

(** C6.  With at most one mode flag set [CanGrow] returns [True], and so
    [GrowRNA] never reaches its diagnostic and division by zero: it prints
    nothing and, if it raises at all, raises from a [SanityCheck]. *)
Theorem CanGrow_true s :
  (modes_set s <= 1)%nat ->
  CanGrow s = mkRes (Return true) s []
  /\ (valid s ->
      outcome (GrowRNA s) <> Raise ZeroDivisionError
      /\ printed (GrowRNA s) = []
      /\ GrowRNA s = SanityCheck (growing s)).
Proof.
  intros Hm. split.
  - rewrite CanGrow_eq.
    destruct s as [n pre post pa bt i d sc f m]. unfold modes_set in Hm.
    destruct pre, post, pa, bt; cbn in Hm |- *; try reflexivity; lia.
  - intros Hv. apply valid_sane in Hv.
    rewrite GrowRNA_eq, Hv, SanityCheck_sane.
    destruct (sane (growing s)); cbn; repeat split; discriminate.
Qed.

Lemma CanGrow_true_witness :
  (modes_set iRNAP0 <= 1)%nat
  /\ CanGrow iRNAP0 = mkRes (Return true) iRNAP0 []
  /\ valid iRNAP0
  /\ outcome (GrowRNA iRNAP0) <> Raise ZeroDivisionError.
Proof.
  assert (Hm : (modes_set iRNAP0 <= 1)%nat) by (cbn; lia).
  assert (Hv : valid iRNAP0) by reflexivity.
  split; [exact Hm|].
  split; [exact (proj1 (CanGrow_true iRNAP0 Hm))|].
  split; [exact Hv|].
  exact (proj1 (proj2 (CanGrow_true iRNAP0 Hm) Hv)).
Defined.

(** A valid Pre-translocated state has no other flag set. *)
Lemma valid_pre s :
  valid s -> pre_translocated s = true ->
  post_translocated s = false /\ paused s = false /\ backtracked s = false.
Proof.
  intros Hv Hp. apply valid_modes in Hv. unfold modes_set in Hv.
  rewrite Hp in Hv.
  destruct (post_translocated s), (paused s), (backtracked s);
    cbn in Hv; try lia; repeat split.
Qed.

Lemma sane_same_integers s s' :
  RNA_length s' = RNA_length s ->
  RNADNA_duplex_length s' = RNADNA_duplex_length s ->
  scrunched_DNA_size s' = scrunched_DNA_size s ->
  free_5prime_RNA_length s' = free_5prime_RNA_length s ->
  __max_duplex_length s' = __max_duplex_length s ->
  (modes_set s' <=? 1)%nat = (modes_set s <=? 1)%nat ->
  sane s' = sane s.
Proof.
  intros H1 H2 H3 H4 H5 H6. unfold sane.
  rewrite H1, H2, H3, H4, H5, H6. reflexivity.
Qed.

(** C9.  From a valid Pre-translocated state [Translocate] returns with
    the object Post-translocated, and [ReverseTranslocate] then returns
    with the object exactly as it was before the two calls: Pre-translocated
    again and every other attribute untouched. *)
Theorem Translocate_ReverseTranslocate s :
  valid s -> pre_translocated s = true ->
  Translocate s = mkRes (Return tt) (translocated s) []
  /\ pre_translocated (translocated s) = false
  /\ post_translocated (translocated s) = true
  /\ ReverseTranslocate (translocated s) = mkRes (Return tt) s []
  /\ run [T_Translocate; T_ReverseTranslocate] s = mkRes (Return tt) s [].
Proof.
  intros Hv Hp.
  destruct (valid_pre s Hv Hp) as (Hpo & Hpa & Hbt).
  apply valid_sane in Hv.
  assert (Hs : sane (translocated s) = true).
  { rewrite <- Hv. apply sane_same_integers; try reflexivity.
    unfold modes_set. cbn. rewrite Hp, Hpo, Hpa, Hbt. reflexivity. }
  assert (Hback : reverse_translocated (translocated s) = s).
  { destruct s; cbn in *. subst. reflexivity. }
  assert (E1 : Translocate s = mkRes (Return tt) (translocated s) []).
  { rewrite Translocate_eq, Hv, Hpo, SanityCheck_sane, Hs. reflexivity. }
  assert (E2 : ReverseTranslocate (translocated s) = mkRes (Return tt) s []).
  { rewrite ReverseTranslocate_eq, Hs. cbn [translocated pre_translocated
      set_post_translocated set_pre_translocated].
    rewrite Hback, SanityCheck_sane, Hv. reflexivity. }
  repeat split; try assumption.
  cbn [run call].
  rewrite (bind_returned Translocate _ s tt _ E1).
  rewrite (bind_returned ReverseTranslocate _ _ tt _ E2).
  reflexivity.
Qed.

Lemma Translocate_ReverseTranslocate_witness :
  valid iRNAP0 /\ pre_translocated iRNAP0 = true
  /\ run [T_Translocate; T_ReverseTranslocate] iRNAP0 =
     mkRes (Return tt) iRNAP0 [].
Proof.
  split; [reflexivity|]. split; [reflexivity|].
  apply (Translocate_ReverseTranslocate iRNAP0); reflexivity.
Defined.

End Single.

Section ReverseTranslocate.

(** C4, as the claim has it, fails: in the Paused state that [Pause]
    reaches from the default object, and in the Backtracked state one
    [Backtrack] further, [ReverseTranslocate] passes its guard, sets
    [pre_translocated] beside the flag that is still set and raises
    [AssertionError] from its closing [SanityCheck]. *)
Lemma ReverseTranslocate_from_Paused_raises :
  run [T_Pause] iRNAP0 =
    mkRes (Return tt) (mk_iRNAP 2 false false true false 2 2 0 0 10) []
  /\ valid (mk_iRNAP 2 false false true false 2 2 0 0 10)
  /\ ReverseTranslocate (mk_iRNAP 2 false false true false 2 2 0 0 10) =
     mkRes (Raise AssertionError)
       (mk_iRNAP 2 true false true false 2 2 0 0 10) []
  /\ run [T_Pause; T_Backtrack] iRNAP0 =
     mkRes (Return tt) (mk_iRNAP 2 false false false true 1 1 (-1) 0 10) []
  /\ valid (mk_iRNAP 2 false false false true 1 1 (-1) 0 10)
  /\ ReverseTranslocate (mk_iRNAP 2 false false false true 1 1 (-1) 0 10) =
     mkRes (Raise AssertionError)
       (mk_iRNAP 2 true false false true 1 1 (-1) 0 10) [].
Proof. repeat split. Qed.

(** C4, amended.  From a valid state [ReverseTranslocate] returns exactly
    when none of [pre_translocated], [paused] and [backtracked] is set
    (the state is Post-translocated, or has no flag set); it then leaves
    the object valid and Pre-translocated, the three other flags false
    and the integers untouched.  When [pre_translocated] is set it prints
    its diagnostic and raises [ZeroDivisionError] without changing the
    object; when [paused] or [backtracked] is set it raises
    [AssertionError] from the closing check. *)
Theorem ReverseTranslocate_spec s :
  valid s ->
  (pre_translocated s = true ->
   ReverseTranslocate s =
   mkRes (Raise ZeroDivisionError) s ["Was already pre-translocated!"%string])
  /\ (pre_translocated s = false -> paused s = false ->
      backtracked s = false ->
      ReverseTranslocate s = mkRes (Return tt) (reverse_translocated s) []
      /\ valid (reverse_translocated s)
      /\ reverse_translocated s = with_mode true false false false s)
  /\ (paused s = true \/ backtracked s = true ->
      ReverseTranslocate s =
      mkRes (Raise AssertionError) (reverse_translocated s) []).
Proof.
  intros Hv. pose proof (valid_modes s Hv) as Hm.
  apply valid_sane in Hv. rewrite ReverseTranslocate_eq, Hv.
  split; [|split].
  - intros ->. reflexivity.
  - intros Hp Hpa Hbt. rewrite Hp.
    assert (Hs : sane (reverse_translocated s) = true).
    { rewrite <- Hv. apply sane_same_integers; try reflexivity.
      unfold modes_set. cbn. rewrite Hp, Hpa, Hbt.
      destruct (post_translocated s); reflexivity. }
    rewrite SanityCheck_sane, Hs. split; [reflexivity|].
    split; [apply valid_sane; exact Hs|].
    destruct s; cbn in *; subst; reflexivity.
  - intros Hpb.
    assert (Hp : pre_translocated s = false).
    { unfold modes_set in Hm.
      destruct (pre_translocated s), (post_translocated s),
        (paused s), (backtracked s), Hpb; cbn in Hm;
        try discriminate; try reflexivity; lia. }
    rewrite Hp, SanityCheck_sane.
    assert (Hs : sane (reverse_translocated s) = false).
    { unfold sane, modes_set. cbn.
      destruct Hpb as [-> | ->];
        destruct (paused s), (backtracked s); reflexivity. }
    rewrite Hs. reflexivity.
Qed.

Lemma ReverseTranslocate_spec_witness :
  valid (translocated iRNAP0)
  /\ ReverseTranslocate (translocated iRNAP0) = mkRes (Return tt) iRNAP0 []
  /\ valid (pausing iRNAP0)
  /\ ReverseTranslocate (pausing iRNAP0) =
     mkRes (Raise AssertionError) (reverse_translocated (pausing iRNAP0)) [].
Proof.
  assert (Hv : valid (translocated iRNAP0)) by reflexivity.
  assert (Hv' : valid (pausing iRNAP0)) by reflexivity.
  split; [exact Hv|]. split.
  - exact (proj1 (proj1 (proj2 (ReverseTranslocate_spec _ Hv))
                    eq_refl eq_refl eq_refl)).
  - split; [exact Hv'|].
    exact (proj2 (proj2 (ReverseTranslocate_spec _ Hv')) (or_introl eq_refl)).
Defined.

End ReverseTranslocate.

Section GrowRNA.

(** C10, as the claim has it, fails: the constructor accepts this state
    (a free end of 2 over a duplex of 3 in a transcript of 5), and
    [GrowRNA] on it raises [AssertionError], having set the duplex to the
    new transcript length with the free end still 2. *)
Lemma GrowRNA_valid_state_raises :
  __init__ 5 true false false false 5 3 0 2 10 =
    mkRes (Return tt) (mk_iRNAP 5 true false false false 5 3 0 2 10) []
  /\ valid (mk_iRNAP 5 true false false false 5 3 0 2 10)
  /\ GrowRNA (mk_iRNAP 5 true false false false 5 3 0 2 10) =
     mkRes (Raise AssertionError)
       (mk_iRNAP 6 true false false false 6 6 1 2 10) [].
Proof. repeat split. Qed.

Lemma sane_growing_below s :
  sane s = true ->
  free_5prime_RNA_length s <= 0 ->
  RNA_length s + 1 < __max_duplex_length s ->
  sane (growing s) = true.
Proof.
  intros Hs Hf Hn. apply sane_true_iff in Hs. apply sane_true_iff.
  destruct s as [n pre post pa bt i d sc f m].
  unfold growing, new_duplex, modes_set in *. cbn in *.
  destruct (Z.leb_spec (n + 1) m); [|lia].
  destruct (Z.eqb_spec (n + 1) m); [lia|].
  repeat split; try tauto; lia.
Qed.

(** Away from the step onto [max_duplex_length], [growable] is exactly
    what lets the closing check of [GrowRNA] pass. *)
Lemma sane_growing_growable s :
  sane s = true ->
  (growable s = true -> sane (growing s) = true)
  /\ (RNA_length s + 1 <> __max_duplex_length s ->
      growable s = false -> sane (growing s) = false).
Proof.
  intros Hs. apply sane_true_iff in Hs.
  assert (Hiff : RNA_length s + 1 <> __max_duplex_length s ->
                 (sane (growing s) = true <-> growable s = true)
          /\ (growable s = true ->
              RNA_length s + 1 <> __max_duplex_length s)).
  { unfold growable.
    rewrite sane_true_iff, !orb_true_iff, !andb_true_iff, !orb_true_iff,
      !negb_true_iff, !Z.ltb_lt, !Z.leb_le, !Z.eqb_eq, !Z.eqb_neq.
    destruct s as [n pre post pa bt i d sc f m].
    unfold growing, new_duplex, modes_set in *. cbn in *.
    destruct (Z.leb_spec (n + 1) m);
      match goal with
      | |- context [?a =? m] => destruct (Z.eqb_spec a m)
      end; lia. }
  assert (Hclear : growable s = true ->
                   RNA_length s + 1 <> __max_duplex_length s).
  { unfold growable.
    rewrite !orb_true_iff, !andb_true_iff, !Z.ltb_lt. lia. }
  split.
  - intros Hg. apply (proj1 (Hiff (Hclear Hg))). exact Hg.
  - intros Hn Hg. destruct (sane (growing s)) eqn:E; [|reflexivity].
    rewrite (proj1 (proj1 (Hiff Hn)) eq_refl) in Hg. discriminate Hg.
Qed.

(** C10, amended.  [GrowRNA] never changes a mode flag, whether it
    returns or raises.  The mode plays no part in whether it returns: on
    two valid states with the same integers the outcome is the same.  Away
    from the step that brings the transcript to [max_duplex_length], it
    returns from exactly the valid states whose integers are [growable],
    saturated states and the Pre-translocated state included, and raises
    [AssertionError] from the others. *)
Theorem GrowRNA_keeps_mode s :
  (pre_translocated (final (GrowRNA s)) = pre_translocated s
   /\ post_translocated (final (GrowRNA s)) = post_translocated s
   /\ paused (final (GrowRNA s)) = paused s
   /\ backtracked (final (GrowRNA s)) = backtracked s)
  /\ (valid s -> growable s = true ->
      GrowRNA s =
      mkRes (Return tt)
        (mk_iRNAP (RNA_length s + 1) (pre_translocated s)
           (post_translocated s) (paused s) (backtracked s)
           (iplus1_site s + 1)
           (if RNA_length s + 1 <? __max_duplex_length s
            then RNA_length s + 1 else RNADNA_duplex_length s)
           (scrunched_DNA_size s + 1)
           (if (__max_duplex_length s <? RNA_length s + 1)
               && (RNADNA_duplex_length s =? __max_duplex_length s)
            then free_5prime_RNA_length s + 1
            else free_5prime_RNA_length s)
           (__max_duplex_length s)) [])
  /\ (valid s -> RNA_length s + 1 <> __max_duplex_length s ->
      growable s = false ->
      outcome (GrowRNA s) = Raise AssertionError)
  /\ (forall pre post pa bt,
        valid s -> valid (with_mode pre post pa bt s) ->
        outcome (GrowRNA (with_mode pre post pa bt s)) =
        outcome (GrowRNA s)).
Proof.
  split; [|split; [|split]].
  - rewrite GrowRNA_eq, SanityCheck_sane.
    destruct (sane s); [destruct (sane (growing s))|]; repeat split.
  - intros Hv Hg. apply valid_sane in Hv.
    rewrite GrowRNA_eq, Hv, SanityCheck_sane.
    rewrite (proj1 (sane_growing_growable s Hv) Hg).
    f_equal. unfold growing, new_duplex.
    assert (Hclear : RNA_length s + 1 <> __max_duplex_length s).
    { revert Hg. unfold growable.
      rewrite !orb_true_iff, !andb_true_iff, !Z.ltb_lt. lia. }
    destruct (Z.leb_spec (RNA_length s + 1) (__max_duplex_length s));
      destruct (Z.ltb_spec (RNA_length s + 1) (__max_duplex_length s));
      destruct (Z.ltb_spec (__max_duplex_length s) (RNA_length s + 1));
      try lia; cbn [andb].
    + destruct (Z.eqb_spec (RNA_length s + 1) (__max_duplex_length s));
        [lia|reflexivity].
    + reflexivity.
  - intros Hv Hn Hg. apply valid_sane in Hv.
    rewrite GrowRNA_eq, Hv, SanityCheck_sane.
    rewrite (proj2 (sane_growing_growable s Hv) Hn Hg). reflexivity.
  - intros pre post pa bt Hv Hv'.
    pose proof (valid_modes _ Hv) as Hm.
    pose proof (valid_modes _ Hv') as Hm'.
    apply valid_sane in Hv, Hv'.
    rewrite !GrowRNA_eq, Hv, Hv', !SanityCheck_sane.
    assert (E : sane (growing (with_mode pre post pa bt s))
                = sane (growing s)).
    { apply sane_same_integers; try reflexivity.
      apply Nat.leb_le in Hm, Hm'.
      change (modes_set (growing (with_mode pre post pa bt s)))
        with (modes_set (with_mode pre post pa bt s)).
      change (modes_set (growing s)) with (modes_set s).
      rewrite Hm, Hm'. reflexivity. }
    rewrite E. destruct (sane (growing s)); reflexivity.
Qed.

Lemma GrowRNA_keeps_mode_witness :
  valid iRNAP0
  /\ GrowRNA iRNAP0 =
     mkRes (Return tt) (mk_iRNAP 3 true false false false 3 3 1 0 10) []
  /\ valid (mk_iRNAP 10 false true false false 10 10 8 0 10)
  /\ GrowRNA (mk_iRNAP 10 false true false false 10 10 8 0 10) =
     mkRes (Return tt) (mk_iRNAP 11 false true false false 11 10 9 1 10) []
  /\ valid (mk_iRNAP 5 false false true false 5 3 0 2 10)
  /\ outcome (GrowRNA (mk_iRNAP 5 false false true false 5 3 0 2 10)) =
     Raise AssertionError
  /\ outcome (GrowRNA (with_mode false true false false iRNAP0)) =
     outcome (GrowRNA iRNAP0).
Proof.
  assert (Hv : valid iRNAP0) by reflexivity.
  assert (Hv1 : valid (mk_iRNAP 10 false true false false 10 10 8 0 10))
    by reflexivity.
  assert (Hv2 : valid (mk_iRNAP 5 false false true false 5 3 0 2 10))
    by reflexivity.
  split; [exact Hv|].
  split; [exact (proj1 (proj2 (GrowRNA_keeps_mode iRNAP0)) Hv eq_refl)|].
  split; [exact Hv1|].
  split; [exact (proj1 (proj2 (GrowRNA_keeps_mode _)) Hv1 eq_refl)|].
  split; [exact Hv2|].
  split.
  - apply (proj1 (proj2 (proj2 (GrowRNA_keeps_mode _))) Hv2).
    + cbn. lia.
    + reflexivity.
  - apply (proj2 (proj2 (proj2 (GrowRNA_keeps_mode iRNAP0)))
             false true false false Hv).
    reflexivity.
Defined.

End GrowRNA.

(** ** Runs of transitions *)

Section Runs.

(** C2, as the claim has it, fails: from the default object [Pause] and
    then [ReverseTranslocate] each pass their guard, yet the second raises
    [AssertionError] and leaves [pre_translocated] and [paused] both
    set.  The integers can break it as well: with a free 5' end of 2 the
    six invariants hold and the guards pass, yet [GrowRNA] below
    [max_duplex_length] and [Backtrack] at it both raise [AssertionError]
    and leave a free end that is not the overhang. *)
Lemma legal_run_breaks_invariants :
  spec_invariants iRNAP0
  /\ legal_run [T_Pause; T_ReverseTranslocate] iRNAP0
  /\ trace [T_Pause; T_ReverseTranslocate] iRNAP0 =
     [mkRes (Return tt) (mk_iRNAP 2 false false true false 2 2 0 0 10) [];
      mkRes (Raise AssertionError)
        (mk_iRNAP 2 true false true false 2 2 0 0 10) []]
  /\ ~ spec_invariants (mk_iRNAP 2 true false true false 2 2 0 0 10)
  /\ spec_invariants (mk_iRNAP 5 true false false false 5 3 0 2 10)
  /\ legal_run [T_GrowRNA] (mk_iRNAP 5 true false false false 5 3 0 2 10)
  /\ trace [T_GrowRNA] (mk_iRNAP 5 true false false false 5 3 0 2 10) =
     [mkRes (Raise AssertionError)
        (mk_iRNAP 6 true false false false 6 6 1 2 10) []]
  /\ ~ spec_invariants (mk_iRNAP 6 true false false false 6 6 1 2 10)
  /\ spec_invariants (mk_iRNAP 12 false false true false 12 10 3 2 10)
  /\ legal_run [T_Backtrack] (mk_iRNAP 12 false false true false 12 10 3 2 10)
  /\ trace [T_Backtrack] (mk_iRNAP 12 false false true false 12 10 3 2 10) =
     [mkRes (Raise AssertionError)
        (mk_iRNAP 12 false false false true 11 9 2 1 10) []]
  /\ ~ spec_invariants (mk_iRNAP 12 false false false true 11 9 2 1 10).
Proof.
  split; [constructor; cbn; lia|].
  split; [vm_compute; tauto|]. split; [reflexivity|].
  split; [intros [H _ _ _ _ _]; discriminate|].
  split; [constructor; cbn; lia|].
  split; [vm_compute; tauto|]. split; [reflexivity|].
  split; [intros [_ _ _ _ H _]; cbn in H; lia|].
  split; [constructor; cbn; lia|].
  split; [vm_compute; tauto|]. split; [reflexivity|].
  intros [_ _ _ _ H _]; cbn in H; lia.
Qed.

(** The guard of a transition is what decides between its body and its
    division by zero. *)
Lemma legal_guard t s :
  valid s ->
  (legal t s = false <-> outcome (call t s) = Raise ZeroDivisionError).
Proof.
  intros Hv. apply valid_sane in Hv.
  rewrite call_eq, Hv, SanityCheck_sane.
  destruct (legal t s); [destruct (sane (effect t s))|];
    cbn; split; intros H; try reflexivity; discriminate.
Qed.

Lemma admissible_step t s :
  spec_invariants s -> admissible t s = true ->
  call t s = mkRes (Return tt) (effect t s) []
  /\ spec_invariants (effect t s)
  /\ legal t s = true.
Proof.
  intros Hi Ha.
  assert (Hgrow : t = T_GrowRNA ->
                  legal t s = true /\ spec_invariants (effect t s)).
  { intros ->. cbn [admissible effect] in *.
    pose proof (spec_invariants_valid s Hi) as Hv. apply valid_sane in Hv.
    split; [apply sane_legal_GrowRNA; exact Hv|].
    apply valid_spec_invariants.
    - apply valid_sane. apply (proj1 (sane_growing_growable s Hv) Ha).
    - change (modes_set (growing s)) with (modes_set s). apply Hi. }
  assert (Hl : legal t s = true /\ spec_invariants (effect t s)).
  { destruct t; try (apply Hgrow; reflexivity); clear Hgrow;
      destruct Hi as [H1 H2 H3 H4 H5 H6];
      destruct s as [n pre post pa bt i d sc f m];
      unfold modes_set in H1;
      cbn [RNA_length pre_translocated post_translocated paused backtracked
           RNADNA_duplex_length scrunched_DNA_size free_5prime_RNA_length
           __max_duplex_length] in H1, H2, H3, H4, H5, H6;
      destruct pre, post, pa, bt; try discriminate H1; clear H1;
      unfold admissible in Ha;
      cbn [RNA_length pre_translocated post_translocated paused backtracked
           RNADNA_duplex_length scrunched_DNA_size free_5prime_RNA_length
           __max_duplex_length orb andb] in Ha;
      try discriminate Ha;
      (split; [reflexivity|]);
      unfold effect, translocated, reverse_translocated, pausing,
        backtracking;
      cbn [RNA_length pre_translocated post_translocated paused backtracked
           RNADNA_duplex_length scrunched_DNA_size free_5prime_RNA_length
           __max_duplex_length set_pre_translocated set_post_translocated
           set_paused];
      try (constructor; cbn; assumption);
      rewrite ?andb_true_iff, ?Z.leb_le, ?Z.ltb_lt in Ha.
    all: try (destruct (Z.leb_spec d m); [|lia];
              destruct (Z.gtb_spec f 0)).
    all: constructor; cbn; try reflexivity; try assumption; lia. }
  destruct Hl as (Hl & Hi'). split; [|split; assumption].
  apply call_sane_returns.
  - apply valid_sane, spec_invariants_valid, Hi.
  - exact Hl.
  - apply valid_sane, spec_invariants_valid, Hi'.
Qed.

(** Under the six invariants a transition that returns was issued from
    an admissible state, the step that brings the transcript to
    [max_duplex_length] set aside. *)
Lemma returns_admissible t s :
  spec_invariants s ->
  outcome (call t s) = Return tt ->
  (t = T_GrowRNA -> RNA_length s + 1 <> __max_duplex_length s) ->
  admissible t s = true.
Proof.
  intros Hi H Hstep. apply call_returns in H.
  destruct H as (_ & Hs & Hl & Hs').
  destruct t; cbn [admissible].
  5: { destruct (growable s) eqn:Hg; [reflexivity|].
       cbn [effect] in Hs'.
       rewrite (proj2 (sane_growing_growable s Hs) (Hstep eq_refl) Hg) in Hs'.
       discriminate Hs'. }
  all: apply sane_true_iff in Hs, Hs';
    destruct Hi as [H1 _ _ _ _ _];
    destruct s as [n pre post pa bt i d sc f m];
    unfold modes_set in *;
    unfold effect, translocated, reverse_translocated, pausing,
      backtracking in Hs';
    cbn in H1, Hl, Hs, Hs' |- *;
    destruct pre, post, pa, bt; cbn in H1, Hl, Hs' |- *;
    try discriminate; try lia; try reflexivity.
  all: rewrite ?andb_true_iff, ?Z.leb_le; revert Hs';
    destruct (Z.leb_spec d m); destruct (Z.gtb_spec f 0); lia.
Qed.

(** C2, amended.  Start from a state with the six invariants and issue
    each transition from a state it is written for: [Translocate] and
    [Pause] when Pre-translocated, [ReverseTranslocate] when
    Post-translocated, [Backtrack] when Paused or Backtracked with a free
    5' end of at most 1 and a duplex of at most [max_duplex_length],
    [GrowRNA] with [growable] integers, saturated states included.  Then
    every transition passes its guard, returns, prints nothing, and leaves
    the six invariants in force.  Nothing more is asked than is needed:
    the step of [GrowRNA] that brings the transcript to
    [max_duplex_length] set aside, a transition that returns under the six
    invariants was issued from such a state. *)
Theorem admissible_run_preserves ts :
  forall s,
    spec_invariants s ->
    (admissible_run ts s ->
     legal_run ts s
     /\ List.length (trace ts s) = List.length ts
     /\ Forall (fun r => outcome r = Return tt /\ printed r = []
                         /\ spec_invariants (final r)) (trace ts s)
     /\ outcome (run ts s) = Return tt
     /\ spec_invariants (final (run ts s)))
    /\ (forall t,
          outcome (call t s) = Return tt ->
          (t = T_GrowRNA -> RNA_length s + 1 <> __max_duplex_length s) ->
          admissible t s = true).
Proof.
  induction ts as [|t ts IH]; intros s Hi;
    (split; [|intros t' H' Hstep; exact (returns_admissible t' s Hi H' Hstep)]);
    intros Ha.
  - cbn. repeat split; try constructor; apply Hi.
  - destruct Ha as (Ha & Hrest).
    destruct (admissible_step t s Hi Ha) as (Hc & Hi' & Hl).
    rewrite Hc in Hrest. cbn [final] in Hrest.
    destruct (proj1 (IH _ Hi') Hrest) as (IH1 & IH2 & IH3 & IH4 & IH5).
    assert (Hr : run (t :: ts) s = run ts (effect t s))
      by exact (bind_returned (call t) (fun _ => run ts) s tt _ Hc).
    cbn [legal_run trace]. rewrite Hr, Hc. cbn [outcome final].
    split; [split; assumption|].
    split; [cbn [List.length]; rewrite IH2; reflexivity|].
    split; [|split; assumption].
    constructor; [|exact IH3].
    split; [reflexivity|]. split; [reflexivity|]. exact Hi'.
Qed.

Lemma admissible_run_preserves_witness :
  spec_invariants iRNAP0
  /\ admissible_run main_transitions iRNAP0
  /\ spec_invariants (final (run main_transitions iRNAP0))
  /\ spec_invariants (mk_iRNAP 10 true false false false 10 10 8 0 10)
  /\ admissible_run [T_GrowRNA; T_GrowRNA; T_Translocate]
       (mk_iRNAP 10 true false false false 10 10 8 0 10)
  /\ trace [T_GrowRNA; T_GrowRNA; T_Translocate]
       (mk_iRNAP 10 true false false false 10 10 8 0 10) =
     [mkRes (Return tt) (mk_iRNAP 11 true false false false 11 10 9 1 10) [];
      mkRes (Return tt) (mk_iRNAP 12 true false false false 12 10 10 2 10) [];
      mkRes (Return tt) (mk_iRNAP 12 false true false false 12 10 10 2 10) []]
  /\ spec_invariants
       (final (run [T_GrowRNA; T_GrowRNA; T_Translocate]
                 (mk_iRNAP 10 true false false false 10 10 8 0 10)))
  /\ admissible T_Pause iRNAP0 = true.
Proof.
  assert (Hi : spec_invariants iRNAP0) by (constructor; cbn; lia).
  assert (Ha : admissible_run main_transitions iRNAP0)
    by (vm_compute; tauto).
  assert (Hi' : spec_invariants
                  (mk_iRNAP 10 true false false false 10 10 8 0 10))
    by (constructor; cbn; lia).
  assert (Ha' : admissible_run [T_GrowRNA; T_GrowRNA; T_Translocate]
                  (mk_iRNAP 10 true false false false 10 10 8 0 10))
    by (vm_compute; tauto).
  split; [exact Hi|]. split; [exact Ha|].
  split; [exact (proj2 (proj2 (proj2 (proj2
            (proj1 (admissible_run_preserves main_transitions iRNAP0 Hi)
               Ha)))))|].
  split; [exact Hi'|]. split; [exact Ha'|]. split; [reflexivity|].
  split; [exact (proj2 (proj2 (proj2 (proj2
            (proj1 (admissible_run_preserves _ _ Hi') Ha')))))|].
  apply (proj2 (admissible_run_preserves [] iRNAP0 Hi) T_Pause).
  - reflexivity.
  - discriminate.
Defined.

End Runs.

(** ** Scrunched DNA and backtracking *)

Section Scrunching.

(** C5, as the claim has it, fails: from the default object [Pause] and
    then [Backtrack] each pass their guard and return, and the object is
    left valid with [scrunched_DNA_size] at -1. *)
Lemma scrunched_DNA_size_negative :
  iRNAP_default = mkRes (Return tt) iRNAP0 []
  /\ legal_run [T_Pause; T_Backtrack] iRNAP0
  /\ run [T_Pause; T_Backtrack] iRNAP0 =
     mkRes (Return tt) (mk_iRNAP 2 false false false true 1 1 (-1) 0 10) []
  /\ scrunched_DNA_size (final (run [T_Pause; T_Backtrack] iRNAP0)) < 0.
Proof.
  split; [reflexivity|]. split; [vm_compute; tauto|].
  split; reflexivity.
Qed.

Lemma effect_scrunched t s :
  scrunched_DNA_size (effect t s) =
  scrunched_DNA_size s
  + (if is_GrowRNA t then 1 else 0) - (if is_Backtrack t then 1 else 0).
Proof. destruct t; cbn; lia. Qed.

Lemma effect_RNA_length t s :
  RNA_length (effect t s) = RNA_length s + (if is_GrowRNA t then 1 else 0).
Proof. destruct t; cbn; lia. Qed.

Lemma calls_of_cons p t ts :
  calls_of p (t :: ts) = (if p t then 1 else 0) + calls_of p ts.
Proof.
  unfold calls_of. cbn [filter]. destruct (p t); [|lia].
  cbn [List.length]. lia.
Qed.

(** A run that returns has moved [scrunched_DNA_size] up once per
    [GrowRNA] and down once per [Backtrack], and [RNA_length] up once per
    [GrowRNA]. *)
Lemma run_counts ts :
  forall s,
    outcome (run ts s) = Return tt ->
    scrunched_DNA_size (final (run ts s)) =
      scrunched_DNA_size s + calls_of is_GrowRNA ts
      - calls_of is_Backtrack ts
    /\ RNA_length (final (run ts s)) = RNA_length s + calls_of is_GrowRNA ts.
Proof.
  induction ts as [|t ts IH]; intros s H.
  - cbn. unfold calls_of. cbn. lia.
  - destruct (run_cons_returns t ts s H) as (_ & Hr).
    rewrite Hr in H |- *. destruct (IH _ H) as (IH1 & IH2).
    rewrite IH1, IH2, effect_scrunched, effect_RNA_length, !calls_of_cons.
    lia.
Qed.

(** C5, amended.  In the state a run of transitions from the default
    object has reached when all of them returned, [scrunched_DNA_size] is
    the number of [GrowRNA] calls less the number of [Backtrack] calls: it
    stays below [RNA_length], and it is non-negative exactly when the run
    backtracked no more often than it grew. *)
Theorem scrunched_DNA_size_reachable ts :
  outcome (run ts iRNAP0) = Return tt ->
  scrunched_DNA_size (final (run ts iRNAP0)) =
    calls_of is_GrowRNA ts - calls_of is_Backtrack ts
  /\ scrunched_DNA_size (final (run ts iRNAP0))
     < RNA_length (final (run ts iRNAP0))
  /\ (0 <= scrunched_DNA_size (final (run ts iRNAP0)) <->
      calls_of is_Backtrack ts <= calls_of is_GrowRNA ts).
Proof.
  intros H. destruct (run_counts ts iRNAP0 H) as (H1 & H2).
  rewrite H1, H2. cbn [scrunched_DNA_size RNA_length iRNAP0].
  assert (0 <= calls_of is_Backtrack ts) by (unfold calls_of; lia).
  lia.
Qed.

Lemma scrunched_DNA_size_reachable_witness :
  outcome (run main_transitions iRNAP0) = Return tt
  /\ scrunched_DNA_size (final (run main_transitions iRNAP0)) = 1 - 1.
Proof.
  split; [reflexivity|].
  exact (proj1 (scrunched_DNA_size_reachable main_transitions eq_refl)).
Defined.

End Scrunching.

Section Backtrack.

Lemma settled_after t s :
  sane s = true -> sane (effect t s) = true ->
  is_GrowRNA t = true \/ is_Backtrack t = true \/ settled s ->
  settled (effect t s).
Proof.
  intros Hs Hs' Hc. split; [exact Hs'|].
  apply sane_true_iff in Hs, Hs'.
  destruct s as [n pre post pa bt i d sc f m].
  destruct t; cbn in Hc;
    try (destruct Hc as [Hc|[Hc|(_ & Hc)]]; try discriminate;
         cbn in Hc |- *; exact Hc).
  - clear Hc. unfold effect, backtracking, modes_set in *. cbn in *.
    destruct (Z.leb_spec d m); destruct (Z.gtb_spec f 0); lia.
  - clear Hc. unfold effect, growing, new_duplex, modes_set in *. cbn in *.
    destruct (Z.leb_spec (n + 1) m);
      match goal with
      | H : context [?a =? m] |- _ => destruct (Z.eqb_spec a m)
      end; lia.
Qed.

(** Once a run has grown the transcript, every state in which one of its
    transitions returns is settled. *)
Lemma run_settled ts :
  forall s,
    outcome (run ts s) = Return tt ->
    In T_GrowRNA ts \/ settled s ->
    settled (final (run ts s)).
Proof.
  induction ts as [|t ts IH]; intros s H Hc.
  - destruct Hc as [[]|Hc]. exact Hc.
  - destruct (run_cons_returns t ts s H) as (Hcall & Hr).
    apply call_returns in Hcall. destruct Hcall as (_ & Hs & _ & Hs').
    rewrite Hr in H |- *. apply IH; [exact H|].
    destruct Hc as [[-> | Hin] | Hc].
    + right. apply settled_after; [exact Hs|exact Hs'|left; reflexivity].
    + left. exact Hin.
    + right. apply settled_after; [exact Hs|exact Hs'|right; right; exact Hc].
Qed.

(** [Backtrack] from a Paused state with no free 5' end and a duplex
    below [max_duplex_length]. *)
Lemma Backtrack_paused_below s :
  sane s = true -> paused s = true ->
  free_5prime_RNA_length s <= 0 ->
  RNADNA_duplex_length s < __max_duplex_length s ->
  Backtrack s =
  mkRes (Return tt)
    (mk_iRNAP (RNA_length s) false false false true
       (iplus1_site s - 1) (RNADNA_duplex_length s - 1)
       (scrunched_DNA_size s - 1) (free_5prime_RNA_length s)
       (__max_duplex_length s)) [].
Proof.
  intros Hs Hpa Hf Hd.
  rewrite Backtrack_eq, Hs, Hpa. cbn [orb].
  pose proof Hs as Hs'. apply sane_true_iff in Hs'.
  destruct s as [n pre post pa bt i d sc f m].
  unfold modes_set in Hs'. cbn in Hs', Hpa, Hf, Hd. subst pa.
  assert (Hpp : pre = false /\ post = false).
  { destruct pre, post, bt; cbn in Hs'; try lia; split; reflexivity. }
  destruct Hpp as (-> & ->).
  cbn [RNA_length iplus1_site RNADNA_duplex_length scrunched_DNA_size
       free_5prime_RNA_length __max_duplex_length].
  assert (E : backtracking (mk_iRNAP n false false true bt i d sc f m) =
              mk_iRNAP n false false false true (i - 1) (d - 1) (sc - 1) f m).
  { unfold backtracking. cbn.
    destruct (Z.leb_spec d m); [|lia].
    destruct (Z.gtb_spec f 0); [lia|]. reflexivity. }
  rewrite E, SanityCheck_sane.
  assert (Hb : sane (mk_iRNAP n false false false true (i - 1) (d - 1)
                       (sc - 1) f m) = true).
  { apply sane_true_iff. unfold modes_set. cbn.
    destruct bt; cbn in Hs' |- *; lia. }
  rewrite Hb. reflexivity.
Qed.

(** C8.  Take any run that contains a [GrowRNA], ends with [Pause], and
    returns, from any starting object.  It leaves the object Paused; if
    its duplex is below [max_duplex_length], [Backtrack] returns and takes
    [iplus1_site], [scrunched_DNA_size] and [RNADNA_duplex_length] down by
    exactly 1 each, clears [paused] and sets [backtracked]; the transcript
    length, the free 5' end and [max_duplex_length] stay as they were and
    the object is neither Pre- nor Post-translocated. *)
Theorem Backtrack_after_Pause s0 ts :
  In T_GrowRNA ts ->
  outcome (run (ts ++ [T_Pause]) s0) = Return tt ->
  RNADNA_duplex_length (final (run (ts ++ [T_Pause]) s0))
    < __max_duplex_length (final (run (ts ++ [T_Pause]) s0)) ->
  paused (final (run (ts ++ [T_Pause]) s0)) = true
  /\ backtracked (final (run (ts ++ [T_Pause]) s0)) = false
  /\ Backtrack (final (run (ts ++ [T_Pause]) s0)) =
     mkRes (Return tt)
       (mk_iRNAP
          (RNA_length (final (run (ts ++ [T_Pause]) s0)))
          false false false true
          (iplus1_site (final (run (ts ++ [T_Pause]) s0)) - 1)
          (RNADNA_duplex_length (final (run (ts ++ [T_Pause]) s0)) - 1)
          (scrunched_DNA_size (final (run (ts ++ [T_Pause]) s0)) - 1)
          (free_5prime_RNA_length (final (run (ts ++ [T_Pause]) s0)))
          (__max_duplex_length (final (run (ts ++ [T_Pause]) s0)))) []
  /\ iplus1_site (final (Backtrack (final (run (ts ++ [T_Pause]) s0)))) =
     iplus1_site (final (run (ts ++ [T_Pause]) s0)) - 1
  /\ scrunched_DNA_size
       (final (Backtrack (final (run (ts ++ [T_Pause]) s0)))) =
     scrunched_DNA_size (final (run (ts ++ [T_Pause]) s0)) - 1
  /\ RNADNA_duplex_length
       (final (Backtrack (final (run (ts ++ [T_Pause]) s0)))) =
     RNADNA_duplex_length (final (run (ts ++ [T_Pause]) s0)) - 1
  /\ paused (final (Backtrack (final (run (ts ++ [T_Pause]) s0)))) = false
  /\ backtracked (final (Backtrack (final (run (ts ++ [T_Pause]) s0))))
     = true.
Proof.
  intros Hin H Hd.
  assert (Hset : settled (final (run (ts ++ [T_Pause]) s0))).
  { apply run_settled; [exact H|]. left. apply in_or_app. left. exact Hin. }
  assert (Hpa : paused (final (run (ts ++ [T_Pause]) s0)) = true).
  { destruct (run_app_returns ts [T_Pause] s0 H) as (_ & Happ).
    rewrite Happ in H |- *.
    destruct (run_cons_returns T_Pause [] _ H) as (_ & Hr).
    rewrite Hr. reflexivity. }
  destruct Hset as (Hs & Hfree).
  assert (Hbt : backtracked (final (run (ts ++ [T_Pause]) s0)) = false).
  { pose proof Hs as Hm. apply sane_true_iff in Hm. destruct Hm as (Hm & _).
    unfold modes_set in Hm. rewrite Hpa in Hm.
    destruct (backtracked (final (run (ts ++ [T_Pause]) s0)));
      [|reflexivity].
    destruct (pre_translocated (final (run (ts ++ [T_Pause]) s0))),
      (post_translocated (final (run (ts ++ [T_Pause]) s0)));
      cbn in Hm; lia. }
  rewrite (Backtrack_paused_below _ Hs Hpa (Hfree Hd) Hd).
  cbn [final iplus1_site scrunched_DNA_size RNADNA_duplex_length paused
       backtracked].
  repeat split; assumption.
Qed.

Lemma Backtrack_after_Pause_witness :
  In T_GrowRNA [T_GrowRNA; T_Translocate; T_GrowRNA; T_ReverseTranslocate]
  /\ run ([T_GrowRNA; T_Translocate; T_GrowRNA; T_ReverseTranslocate]
          ++ [T_Pause]) iRNAP0 =
     mkRes (Return tt) (mk_iRNAP 4 false false true false 4 4 2 0 10) []
  /\ Backtrack
       (final (run ([T_GrowRNA; T_Translocate; T_GrowRNA; T_ReverseTranslocate]
                    ++ [T_Pause]) iRNAP0)) =
     mkRes (Return tt) (mk_iRNAP 4 false false false true 3 3 1 0 10) [].
Proof.
  assert (Hin : In T_GrowRNA
                  [T_GrowRNA; T_Translocate; T_GrowRNA; T_ReverseTranslocate])
    by (left; reflexivity).
  split; [exact Hin|]. split; [reflexivity|].
  exact (proj1 (proj2 (proj2
           (Backtrack_after_Pause iRNAP0
              [T_GrowRNA; T_Translocate; T_GrowRNA; T_ReverseTranslocate]
              Hin eq_refl eq_refl)))).
Defined.

End Backtrack.

(** * Further properties of the class *)

(** ** Construction *)

Section Construction.

(** X1.  The constructor returns exactly when at most one mode flag is
    given, the duplex is no longer than the transcript, the scrunched DNA
    and the free 5' end are both shorter than the transcript, a positive
    free 5' end is exactly the overhang, and a duplex above
    [max_duplex_length] comes with a positive free 5' end; otherwise it
    raises [AssertionError].  It puts no condition on [iplus1_site], asks
    for no flag to be set and for no integer to be non-negative. *)
Theorem init_accepts n pre post pa bt i d sc f m :
  __init__ n pre post pa bt i d sc f m =
    mkRes (if sane (mk_iRNAP n pre post pa bt i d sc f m)
           then Return tt else Raise AssertionError)
      (mk_iRNAP n pre post pa bt i d sc f m) []
  /\ (outcome (__init__ n pre post pa bt i d sc f m) = Return tt <->
      (Nat.b2n pre + Nat.b2n post + Nat.b2n pa + Nat.b2n bt <= 1)%nat
      /\ n >= d /\ sc < n /\ f < n
      /\ (f > 0 -> f = n - d)
      /\ (d > m -> f > 0)).
Proof.
  unfold __init__. rewrite SanityCheck_sane.
  pose proof (sane_true_iff (mk_iRNAP n pre post pa bt i d sc f m)) as Hs.
  unfold modes_set in Hs. cbn in Hs. rewrite <- Hs.
  destruct (sane (mk_iRNAP n pre post pa bt i d sc f m)); cbn.
  - split; [reflexivity|]. split; reflexivity.
  - split; [reflexivity|]. split; discriminate.
Qed.

Lemma init_accepts_witness :
  outcome (__init__ 4 false false false false (-7) (-3) (-1) (-2) 0)
  = Return tt.
Proof.
  apply (proj2 (init_accepts 4 false false false false (-7) (-3) (-1) (-2) 0)).
  cbn. lia.
Defined.

End Construction.

(** ** The mode transitions one by one *)

Section ModeTransitions.

(** X2.  From a valid state [Translocate] returns exactly when none of
    [post_translocated], [paused] and [backtracked] is set, and then leaves
    the object valid and Post-translocated with the integers untouched.
    When [post_translocated] is set it prints its diagnostic and raises
    [ZeroDivisionError] without changing the object; when [paused] or
    [backtracked] is set it sets [post_translocated] beside that flag and
    raises [AssertionError] from the closing check. *)
Theorem Translocate_spec s :
  valid s ->
  (post_translocated s = true ->
   Translocate s =
   mkRes (Raise ZeroDivisionError) s ["Was already translocated!"%string])
  /\ (post_translocated s = false -> paused s = false ->
      backtracked s = false ->
      Translocate s = mkRes (Return tt) (translocated s) []
      /\ valid (translocated s)
      /\ translocated s = with_mode false true false false s)
  /\ (paused s = true \/ backtracked s = true ->
      Translocate s = mkRes (Raise AssertionError) (translocated s) []).
Proof.
  intros Hv. pose proof (valid_modes s Hv) as Hm.
  apply valid_sane in Hv. rewrite Translocate_eq, Hv.
  split; [|split].
  - intros ->. reflexivity.
  - intros Hp Hpa Hbt. rewrite Hp.
    assert (Hs : sane (translocated s) = true).
    { rewrite <- Hv. apply sane_same_integers; try reflexivity.
      unfold modes_set. cbn. rewrite Hp, Hpa, Hbt.
      destruct (pre_translocated s); reflexivity. }
    rewrite SanityCheck_sane, Hs. split; [reflexivity|].
    split; [apply valid_sane; exact Hs|].
    destruct s; cbn in *; subst; reflexivity.
  - intros Hpb.
    assert (Hp : post_translocated s = false).
    { unfold modes_set in Hm.
      destruct (pre_translocated s), (post_translocated s),
        (paused s), (backtracked s), Hpb; cbn in Hm;
        try discriminate; try reflexivity; lia. }
    rewrite Hp, SanityCheck_sane.
    assert (Hs : sane (translocated s) = false).
    { unfold sane, modes_set. cbn.
      destruct Hpb as [-> | ->];
        destruct (paused s), (backtracked s); reflexivity. }
    rewrite Hs. reflexivity.
Qed.

Lemma Translocate_spec_witness :
  valid iRNAP0
  /\ Translocate iRNAP0 = mkRes (Return tt) (translocated iRNAP0) []
  /\ valid (pausing iRNAP0)
  /\ Translocate (pausing iRNAP0) =
     mkRes (Raise AssertionError) (translocated (pausing iRNAP0)) [].
Proof.
  assert (Hv : valid iRNAP0) by reflexivity.
  assert (Hv' : valid (pausing iRNAP0)) by reflexivity.
  split; [exact Hv|]. split.
  - exact (proj1 (proj1 (proj2 (Translocate_spec _ Hv))
                    eq_refl eq_refl eq_refl)).
  - split; [exact Hv'|].
    exact (proj2 (proj2 (Translocate_spec _ Hv')) (or_introl eq_refl)).
Defined.

(** X3.  From a valid state [Pause] returns exactly when the object is
    Pre-translocated, and then leaves it valid and Paused: [paused] set,
    the three other flags clear, the integers untouched.  Otherwise it
    raises [ZeroDivisionError] and leaves the object as it was, after
    printing that the object was already paused when [paused] is set and
    that it must be pre-translocated in every other mode.  From a valid
    state it never raises [AssertionError]. *)
Theorem Pause_spec s :
  valid s ->
  (pre_translocated s = true ->
   Pause s =
   mkRes (Return tt)
     (mk_iRNAP (RNA_length s) false false true false (iplus1_site s)
        (RNADNA_duplex_length s) (scrunched_DNA_size s)
        (free_5prime_RNA_length s) (__max_duplex_length s)) []
   /\ paused (final (Pause s)) = true
   /\ pre_translocated (final (Pause s)) = false
   /\ valid (final (Pause s)))
  /\ (paused s = true ->
      Pause s =
      mkRes (Raise ZeroDivisionError) s ["Was already paused!"%string])
  /\ (pre_translocated s = false -> paused s = false ->
      Pause s =
      mkRes (Raise ZeroDivisionError) s
        ["Must be pre-translocated to pause!"%string])
  /\ outcome (Pause s) <> Raise AssertionError.
Proof.
  intros Hv.
  assert (Hpre : pre_translocated s = true ->
                 Pause s =
                 mkRes (Return tt)
                   (mk_iRNAP (RNA_length s) false false true false
                      (iplus1_site s) (RNADNA_duplex_length s)
                      (scrunched_DNA_size s) (free_5prime_RNA_length s)
                      (__max_duplex_length s)) []
                 /\ valid (pausing s)).
  { intros Hp. destruct (valid_pre s Hv Hp) as (Hpo & Hpa & Hbt).
    apply valid_sane in Hv.
    assert (Hs : sane (pausing s) = true).
    { rewrite <- Hv. apply sane_same_integers; try reflexivity.
      unfold modes_set. cbn. rewrite Hp, Hpo, Hpa, Hbt. reflexivity. }
    rewrite Pause_eq, Hv, Hpa, Hp, SanityCheck_sane, Hs.
    split; [|apply valid_sane; exact Hs].
    f_equal. destruct s; cbn in *; subst; reflexivity. }
  split.
  { intros Hp. destruct (Hpre Hp) as (E & Hv').
    rewrite E. cbn [final paused pre_translocated].
    split; [reflexivity|]. split; [reflexivity|]. split; [reflexivity|].
    assert (E' : final (Pause s) = pausing s).
    { destruct (valid_pre s Hv Hp) as (Hpo & Hpa & Hbt).
      pose proof Hv as Hs. apply valid_sane in Hs.
      rewrite Pause_eq, Hs, Hpa, Hp, SanityCheck_sane.
      destruct (sane (pausing s)); reflexivity. }
    rewrite E in E'. cbn [final] in E'. rewrite E'. exact Hv'. }
  pose proof Hv as Hs. apply valid_sane in Hs.
  split; [|split].
  - intros Hpa. rewrite Pause_eq, Hs, Hpa. reflexivity.
  - intros Hp Hpa. rewrite Pause_eq, Hs, Hpa, Hp. reflexivity.
  - destruct (pre_translocated s) eqn:Hp.
    + destruct (Hpre eq_refl) as (E & _). rewrite E. discriminate.
    + rewrite Pause_eq, Hs, Hp. destruct (paused s); discriminate.
Qed.

Lemma Pause_spec_witness :
  valid (mk_iRNAP 5 true false false false 4 3 1 0 10)
  /\ Pause (mk_iRNAP 5 true false false false 4 3 1 0 10) =
     mkRes (Return tt) (mk_iRNAP 5 false false true false 4 3 1 0 10) []
  /\ valid (translocated iRNAP0)
  /\ Pause (translocated iRNAP0) =
     mkRes (Raise ZeroDivisionError) (translocated iRNAP0)
       ["Must be pre-translocated to pause!"%string].
Proof.
  assert (Hv0 : valid (mk_iRNAP 5 true false false false 4 3 1 0 10))
    by reflexivity.
  assert (Hv : valid (translocated iRNAP0)) by reflexivity.
  split; [exact Hv0|].
  split; [exact (proj1 (proj1 (Pause_spec _ Hv0) eq_refl))|].
  split; [exact Hv|].
  exact (proj1 (proj2 (proj2 (Pause_spec _ Hv))) eq_refl eq_refl).
Defined.

(** X4.  A [Translocate], [ReverseTranslocate] or [Pause] issued again
    right after the same transition returned always raises
    [ZeroDivisionError]: it prints its diagnostic and leaves the object as
    the first call left it. *)
Theorem repeated_transition_raises t s :
  t <> T_Backtrack -> t <> T_GrowRNA ->
  outcome (call t s) = Return tt ->
  call t (final (call t s)) =
  mkRes (Raise ZeroDivisionError) (final (call t s))
    [match t with
     | T_Translocate => "Was already translocated!"
     | T_ReverseTranslocate => "Was already pre-translocated!"
     | _ => "Was already paused!"
     end%string].
Proof.
  intros Hb Hg H. apply call_returns in H.
  destruct H as (E & _ & _ & Hs). rewrite E. cbn [final].
  rewrite call_eq, Hs.
  destruct t; try congruence; reflexivity.
Qed.

Lemma repeated_transition_raises_witness :
  call T_Pause (final (call T_Pause iRNAP0)) =
  mkRes (Raise ZeroDivisionError) (final (call T_Pause iRNAP0))
    ["Was already paused!"%string].
Proof.
  apply (repeated_transition_raises T_Pause iRNAP0);
    [discriminate | discriminate | reflexivity].
Defined.

(** X5.  From a valid Post-translocated state [ReverseTranslocate] and
    then [Translocate] both return and leave the object exactly as it was
    before the two calls. *)
Theorem ReverseTranslocate_Translocate s :
  valid s -> post_translocated s = true ->
  ReverseTranslocate s = mkRes (Return tt) (reverse_translocated s) []
  /\ pre_translocated (reverse_translocated s) = true
  /\ post_translocated (reverse_translocated s) = false
  /\ run [T_ReverseTranslocate; T_Translocate] s = mkRes (Return tt) s [].
Proof.
  intros Hv Hpo. pose proof (valid_modes s Hv) as Hm.
  unfold modes_set in Hm. rewrite Hpo in Hm.
  assert (Hf : pre_translocated s = false /\ paused s = false
               /\ backtracked s = false).
  { destruct (pre_translocated s), (paused s), (backtracked s);
      cbn in Hm; try lia; repeat split. }
  destruct Hf as (Hp & Hpa & Hbt).
  apply valid_sane in Hv.
  assert (Hs : sane (reverse_translocated s) = true).
  { rewrite <- Hv. apply sane_same_integers; try reflexivity.
    unfold modes_set. cbn. rewrite Hp, Hpo, Hpa, Hbt. reflexivity. }
  assert (Hback : translocated (reverse_translocated s) = s).
  { destruct s; cbn in *. subst. reflexivity. }
  assert (E1 : ReverseTranslocate s
               = mkRes (Return tt) (reverse_translocated s) []).
  { rewrite ReverseTranslocate_eq, Hv, Hp, SanityCheck_sane, Hs.
    reflexivity. }
  assert (E2 : Translocate (reverse_translocated s) = mkRes (Return tt) s []).
  { rewrite Translocate_eq, Hs.
    cbn [reverse_translocated post_translocated set_post_translocated
         set_pre_translocated].
    rewrite Hback, SanityCheck_sane, Hv. reflexivity. }
  split; [exact E1|]. split; [reflexivity|]. split; [reflexivity|].
  cbn [run call].
  rewrite (bind_returned ReverseTranslocate _ s tt _ E1).
  rewrite (bind_returned Translocate _ _ tt _ E2).
  reflexivity.
Qed.

Lemma ReverseTranslocate_Translocate_witness :
  valid (translocated iRNAP0)
  /\ run [T_ReverseTranslocate; T_Translocate] (translocated iRNAP0) =
     mkRes (Return tt) (translocated iRNAP0) [].
Proof.
  split; [reflexivity|].
  apply (ReverseTranslocate_Translocate (translocated iRNAP0)); reflexivity.
Defined.

End ModeTransitions.

(** ** Backtracking *)

Section Backtracking.

Lemma sane_backtracking_iff s :
  sane s = true -> paused s || backtracked s = true ->
  (sane (backtracking s) = true <->
   free_5prime_RNA_length s <= 1
   /\ RNADNA_duplex_length s <= __max_duplex_length s).
Proof.
  intros Hs Hpb. apply sane_true_iff in Hs. rewrite sane_true_iff.
  destruct s as [n pre post pa bt i d sc f m].
  unfold backtracking, modes_set in *. cbn in Hs, Hpb |- *.
  assert (Hm : (Nat.b2n pre + Nat.b2n post + 0 + 1 <= 1)%nat).
  { destruct pre, post, pa, bt; cbn in Hs, Hpb |- *; try discriminate; lia. }
  destruct (Z.leb_spec d m); destruct (Z.gtb_spec f 0); lia.
Qed.

(** X6.  From a valid state [Backtrack] raises [ZeroDivisionError], after
    printing its diagnostic and without changing the object, exactly when
    the object is neither Paused nor Backtracked.  From a Paused or
    Backtracked state it returns exactly when the free 5' end is at most 1
    and the duplex at most [max_duplex_length]; otherwise its closing check
    raises [AssertionError].  Either way it has by then made the object
    Backtracked, taken [iplus1_site] and [scrunched_DNA_size] down by 1,
    the duplex down by 1 unless it was above [max_duplex_length], and a
    positive free 5' end down by 1; the transcript length is never
    touched. *)
Theorem Backtrack_spec s :
  valid s ->
  (paused s = false -> backtracked s = false ->
   Backtrack s =
   mkRes (Raise ZeroDivisionError) s
     ["Was not in a state from which to backtrack!"%string])
  /\ (paused s = true \/ backtracked s = true ->
      Backtrack s =
      mkRes (if (free_5prime_RNA_length s <=? 1)
                && (RNADNA_duplex_length s <=? __max_duplex_length s)
             then Return tt else Raise AssertionError)
        (mk_iRNAP (RNA_length s) false false false true
           (iplus1_site s - 1)
           (if RNADNA_duplex_length s <=? __max_duplex_length s
            then RNADNA_duplex_length s - 1 else RNADNA_duplex_length s)
           (scrunched_DNA_size s - 1)
           (if free_5prime_RNA_length s >? 0
            then free_5prime_RNA_length s - 1
            else free_5prime_RNA_length s)
           (__max_duplex_length s)) []).
Proof.
  intros Hv. pose proof (valid_modes s Hv) as Hm.
  apply valid_sane in Hv. rewrite Backtrack_eq, Hv. split.
  - intros -> ->. reflexivity.
  - intros Hpb.
    assert (Hor : paused s || backtracked s = true)
      by (destruct Hpb as [-> | ->]; [reflexivity|apply orb_true_r]).
    rewrite Hor, SanityCheck_sane.
    pose proof (sane_backtracking_iff s Hv Hor) as Hiff.
    assert (Hpp : pre_translocated s = false /\ post_translocated s = false).
    { unfold modes_set in Hm.
      destruct (pre_translocated s), (post_translocated s), (paused s),
        (backtracked s); cbn in Hm, Hor; try discriminate; try lia;
        split; reflexivity. }
    destruct Hpp as (Hpre & Hpost).
    assert (E : backtracking s =
                mk_iRNAP (RNA_length s) false false false true
                  (iplus1_site s - 1)
                  (if RNADNA_duplex_length s <=? __max_duplex_length s
                   then RNADNA_duplex_length s - 1
                   else RNADNA_duplex_length s)
                  (scrunched_DNA_size s - 1)
                  (if free_5prime_RNA_length s >? 0
                   then free_5prime_RNA_length s - 1
                   else free_5prime_RNA_length s)
                  (__max_duplex_length s)).
    { unfold backtracking. rewrite Hpre, Hpost. reflexivity. }
    rewrite <- E.
    destruct (sane (backtracking s)) eqn:Hb.
    + destruct (proj1 Hiff eq_refl) as (H1 & H2).
      apply Z.leb_le in H1, H2. rewrite H1, H2. reflexivity.
    + destruct ((free_5prime_RNA_length s <=? 1)
                && (RNADNA_duplex_length s <=? __max_duplex_length s)) eqn:Hc;
        [|reflexivity].
      apply andb_true_iff in Hc. destruct Hc as (H1 & H2).
      apply Z.leb_le in H1, H2.
      pose proof (proj2 Hiff (conj H1 H2)) as Hb'. congruence.
Qed.

Lemma Backtrack_spec_witness :
  valid iRNAP0
  /\ Backtrack iRNAP0 =
     mkRes (Raise ZeroDivisionError) iRNAP0
       ["Was not in a state from which to backtrack!"%string]
  /\ valid (mk_iRNAP 12 false false true false 12 10 3 2 10)
  /\ Backtrack (mk_iRNAP 12 false false true false 12 10 3 2 10) =
     mkRes (Raise AssertionError)
       (mk_iRNAP 12 false false false true 11 9 2 1 10) [].
Proof.
  assert (Hv : valid iRNAP0) by reflexivity.
  assert (Hv' : valid (mk_iRNAP 12 false false true false 12 10 3 2 10))
    by reflexivity.
  split; [exact Hv|].
  split; [exact (proj1 (Backtrack_spec _ Hv) eq_refl eq_refl)|].
  split; [exact Hv'|].
  exact (proj2 (Backtrack_spec _ Hv') (or_introl eq_refl)).
Defined.

(** X7.  [CanBackTrack] never changes the object and never prints.  On a
    valid object it returns whether the object is Paused or Backtracked,
    and it returns [False] exactly when [Backtrack] would raise
    [ZeroDivisionError]; on an object that fails [SanityCheck] it raises
    [AssertionError] itself, where [CanGrow] still returns. *)
Theorem CanBackTrack_spec s :
  final (CanBackTrack s) = s
  /\ printed (CanBackTrack s) = []
  /\ (valid s ->
      outcome (CanBackTrack s) = Return (paused s || backtracked s)
      /\ (outcome (CanBackTrack s) = Return false <->
          outcome (Backtrack s) = Raise ZeroDivisionError))
  /\ (~ valid s ->
      outcome (CanBackTrack s) = Raise AssertionError
      /\ exists b, CanGrow s = mkRes (Return b) s []).
Proof.
  rewrite CanBackTrack_eq, Backtrack_eq, SanityCheck_sane.
  destruct (sane s) eqn:Hs; cbn [final printed outcome].
  - split; [reflexivity|]. split; [reflexivity|]. split.
    + intros _. split; [reflexivity|].
      destruct (paused s || backtracked s).
      * destruct (sane (backtracking s)); split; discriminate.
      * split; reflexivity.
    + intros Hn. exfalso. apply Hn, valid_sane, Hs.
  - split; [reflexivity|]. split; [reflexivity|]. split.
    + intros Hv. apply valid_sane in Hv. congruence.
    + intros _. split; [reflexivity|].
      rewrite CanGrow_eq. eexists. reflexivity.
Qed.

Lemma CanBackTrack_spec_witness :
  valid (pausing iRNAP0)
  /\ outcome (CanBackTrack (pausing iRNAP0)) = Return true
  /\ ~ valid (mk_iRNAP 2 true true true true 2 2 0 0 10)
  /\ outcome (CanBackTrack (mk_iRNAP 2 true true true true 2 2 0 0 10)) =
     Raise AssertionError.
Proof.
  assert (Hv : valid (pausing iRNAP0)) by reflexivity.
  assert (Hn : ~ valid (mk_iRNAP 2 true true true true 2 2 0 0 10))
    by (intros H; discriminate H).
  split; [exact Hv|].
  split; [exact (proj1 (proj1 (proj2 (proj2 (CanBackTrack_spec _))) Hv))|].
  split; [exact Hn|].
  exact (proj1 (proj2 (proj2 (proj2 (CanBackTrack_spec _))) Hn)).
Defined.

(** X8.  Backtracking has no floor.  From a valid Paused or Backtracked
    state with no free 5' end and a duplex of at most [max_duplex_length],
    any number of [Backtrack] calls in a row all return; after [k + 1] of
    them the object is Backtracked and [iplus1_site], the duplex and
    [scrunched_DNA_size] are each [k + 1] lower, so all three go negative
    when the calls go on, while the transcript length stays as it was. *)
Theorem Backtrack_repeated k :
  forall s,
    valid s ->
    paused s = true \/ backtracked s = true ->
    free_5prime_RNA_length s <= 0 ->
    RNADNA_duplex_length s <= __max_duplex_length s ->
    run (repeat T_Backtrack (S k)) s =
    mkRes (Return tt)
      (mk_iRNAP (RNA_length s) false false false true
         (iplus1_site s - Z.of_nat (S k))
         (RNADNA_duplex_length s - Z.of_nat (S k))
         (scrunched_DNA_size s - Z.of_nat (S k))
         (free_5prime_RNA_length s)
         (__max_duplex_length s)) [].
Proof.
  assert (Hone : forall s,
    valid s -> paused s = true \/ backtracked s = true ->
    free_5prime_RNA_length s <= 0 ->
    RNADNA_duplex_length s <= __max_duplex_length s ->
    call T_Backtrack s =
    mkRes (Return tt)
      (mk_iRNAP (RNA_length s) false false false true
         (iplus1_site s - 1) (RNADNA_duplex_length s - 1)
         (scrunched_DNA_size s - 1) (free_5prime_RNA_length s)
         (__max_duplex_length s)) []).
  { intros s Hv Hpb Hf Hd. pose proof (valid_modes s Hv) as Hm.
    apply valid_sane in Hv.
    assert (Hor : paused s || backtracked s = true)
      by (destruct Hpb as [-> | ->]; [reflexivity|apply orb_true_r]).
    assert (Hb : sane (backtracking s) = true)
      by (apply sane_backtracking_iff; [assumption|assumption|lia]).
    rewrite (call_sane_returns T_Backtrack s Hv Hor Hb). cbn [effect].
    f_equal. unfold backtracking.
    assert (Hpp : pre_translocated s = false /\ post_translocated s = false).
    { unfold modes_set in Hm.
      destruct (pre_translocated s), (post_translocated s), (paused s),
        (backtracked s); cbn in Hm, Hor; try discriminate; try lia;
        split; reflexivity. }
    destruct Hpp as (-> & ->).
    destruct (Z.leb_spec (RNADNA_duplex_length s) (__max_duplex_length s));
      [|lia].
    destruct (Z.gtb_spec (free_5prime_RNA_length s) 0); [lia|]. reflexivity. }
  induction k as [|k IH]; intros s Hv Hpb Hf Hd.
  - cbn [repeat run].
    rewrite (bind_returned (call T_Backtrack) _ s tt _ (Hone s Hv Hpb Hf Hd)).
    reflexivity.
  - change (repeat T_Backtrack (S (S k)))
      with (T_Backtrack :: repeat T_Backtrack (S k)).
    cbn [run].
    rewrite (bind_returned (call T_Backtrack) _ s tt _ (Hone s Hv Hpb Hf Hd)).
    rewrite IH.
    + cbn [RNA_length iplus1_site RNADNA_duplex_length scrunched_DNA_size
           free_5prime_RNA_length __max_duplex_length].
      f_equal. f_equal; lia.
    + pose proof (Hone s Hv Hpb Hf Hd) as E.
      assert (Hr : outcome (call T_Backtrack s) = Return tt)
        by (rewrite E; reflexivity).
      apply call_returns in Hr. destruct Hr as (E' & _ & _ & Hs').
      rewrite E in E'.
      assert (E'' : final (mkRes (Return tt) (effect T_Backtrack s) []) =
                    effect T_Backtrack s) by reflexivity.
      rewrite <- E' in E''. cbn [final] in E''. rewrite E''.
      apply valid_sane. exact Hs'.
    + right. reflexivity.
    + exact Hf.
    + cbn. lia.
Qed.

Lemma Backtrack_repeated_witness :
  run (repeat T_Backtrack 4) (pausing iRNAP0) =
  mkRes (Return tt) (mk_iRNAP 2 false false false true (-2) (-2) (-4) 0 10) [].
Proof.
  apply (Backtrack_repeated 3 (pausing iRNAP0)).
  - reflexivity.
  - left. reflexivity.
  - cbn. lia.
  - cbn. lia.
Defined.

End Backtracking.

(** ** How transitions fail *)

Section Failures.

(** X9.  A transition that raises [ZeroDivisionError] was refused by its
    guard: the object was valid, is left exactly as it was, and one
    diagnostic line was printed.  No transition raises any exception other
    than [ZeroDivisionError] and [AssertionError]. *)
Theorem guard_failure_leaves_object t s :
  (outcome (call t s) = Raise ZeroDivisionError ->
   final (call t s) = s /\ valid s /\ legal t s = false
   /\ printed (call t s) = [diagnostic t s])
  /\ outcome (call t s) <> Raise IndexError
  /\ outcome (call t s) <> Raise AttributeError
  /\ outcome (call t s) <> Raise ValueError.
Proof.
  rewrite call_eq, SanityCheck_sane.
  destruct (sane s) eqn:Hs; [destruct (legal t s)|];
    [destruct (sane (effect t s))| |]; cbn;
    (split; [intros H; try discriminate H|repeat split; discriminate]).
  repeat split. apply valid_sane. exact Hs.
Qed.

Lemma guard_failure_leaves_object_witness :
  outcome (call T_Backtrack iRNAP0) = Raise ZeroDivisionError
  /\ final (call T_Backtrack iRNAP0) = iRNAP0.
Proof.
  split; [reflexivity|].
  exact (proj1 (proj1 (guard_failure_leaves_object T_Backtrack iRNAP0)
                  eq_refl)).
Defined.

(** X10.  An [AssertionError] is final.  A transition that raises it has
    printed nothing and leaves an object that fails [SanityCheck]: either
    the object failed it already and is unchanged, or the object was valid,
    passed the guard, and is left as the body changed it.  Every transition
    issued on the object afterwards raises [AssertionError] at its opening
    check and changes nothing. *)
Theorem AssertionError_is_final t s :
  outcome (call t s) = Raise AssertionError ->
  printed (call t s) = []
  /\ ~ valid (final (call t s))
  /\ (~ valid s /\ final (call t s) = s
      \/ valid s /\ legal t s = true /\ final (call t s) = effect t s)
  /\ forall t',
       call t' (final (call t s)) =
       mkRes (Raise AssertionError) (final (call t s)) [].
Proof.
  rewrite call_eq, SanityCheck_sane.
  destruct (sane s) eqn:Hs; [destruct (legal t s) eqn:Hl|];
    [destruct (sane (effect t s)) eqn:Hs'| |]; cbn;
    intros H; try discriminate H; (split; [reflexivity|]).
  - split; [intros Hv; apply valid_sane in Hv; congruence|].
    split.
    + right. split; [apply valid_sane; exact Hs|]. split; reflexivity.
    + intros t'. rewrite call_eq, Hs'. reflexivity.
  - split; [intros Hv; apply valid_sane in Hv; congruence|].
    split.
    + left. split; [|reflexivity].
      intros Hv; apply valid_sane in Hv; congruence.
    + intros t'. rewrite call_eq, Hs. reflexivity.
Qed.

Lemma AssertionError_is_final_witness :
  outcome (call T_Translocate (pausing iRNAP0)) = Raise AssertionError
  /\ call T_Backtrack (final (call T_Translocate (pausing iRNAP0))) =
     mkRes (Raise AssertionError)
       (final (call T_Translocate (pausing iRNAP0))) [].
Proof.
  split; [reflexivity|].
  exact (proj2 (proj2 (proj2
           (AssertionError_is_final T_Translocate (pausing iRNAP0) eq_refl)))
           T_Backtrack).
Defined.

End Failures.

(** ** What every run keeps *)

Section RunInvariants.

Lemma call_final_cases t s :
  final (call t s) = s \/ final (call t s) = effect t s.
Proof.
  rewrite call_eq, SanityCheck_sane.
  destruct (sane s); [destruct (legal t s)|];
    [destruct (sane (effect t s))| |]; cbn; auto.
Qed.

Lemma run_cons_final t ts s :
  final (run (t :: ts) s) =
  match outcome (call t s) with
  | Return _ => final (run ts (final (call t s)))
  | Raise _ => final (call t s)
  end.
Proof.
  cbn [run]. unfold bind. destruct (outcome (call t s)); reflexivity.
Qed.

(** X11.  A run of one or more transitions that all return started from a
    valid object, ends in a valid object and has printed nothing. *)
Theorem completed_run_valid ts s :
  ts <> [] ->
  outcome (run ts s) = Return tt ->
  valid s /\ valid (final (run ts s)) /\ printed (run ts s) = [].
Proof.
  revert s. induction ts as [|t ts IH]; intros s Hne H; [congruence|].
  destruct (run_cons_returns t ts s H) as (Hc & Hr).
  apply call_returns in Hc. destruct Hc as (_ & Hs & _ & Hs').
  rewrite Hr in H |- *.
  split; [apply valid_sane; exact Hs|].
  destruct ts as [|t' ts'].
  - cbn. split; [apply valid_sane; exact Hs'|reflexivity].
  - destruct (IH (effect t s)) as (_ & H2 & H3);
      [discriminate|exact H|]. split; assumption.
Qed.

Lemma completed_run_valid_witness :
  valid (final (run main_transitions iRNAP0)).
Proof.
  refine (proj1 (proj2 (completed_run_valid main_transitions iRNAP0 _ _))).
  - discriminate.
  - reflexivity.
Defined.

(** X12.  Whatever a run does, and whether it returns or is cut short by an
    exception, the object it leaves has the [max_duplex_length] it started
    with, the same difference between [iplus1_site] and
    [scrunched_DNA_size], and a transcript that is no shorter than it was
    and longer by at most the number of [GrowRNA] calls in the run. *)
Theorem run_keeps ts :
  forall s,
    __max_duplex_length (final (run ts s)) = __max_duplex_length s
    /\ iplus1_site (final (run ts s)) - scrunched_DNA_size (final (run ts s))
       = iplus1_site s - scrunched_DNA_size s
    /\ RNA_length s <= RNA_length (final (run ts s))
       <= RNA_length s + calls_of is_GrowRNA ts.
Proof.
  assert (Hone : forall t s,
    __max_duplex_length (final (call t s)) = __max_duplex_length s
    /\ iplus1_site (final (call t s)) - scrunched_DNA_size (final (call t s))
       = iplus1_site s - scrunched_DNA_size s
    /\ RNA_length s <= RNA_length (final (call t s))
       <= RNA_length s + (if is_GrowRNA t then 1 else 0)).
  { intros t s. destruct (call_final_cases t s) as [-> | ->].
    - destruct (is_GrowRNA t); lia.
    - destruct t; cbn; lia. }
  induction ts as [|t ts IH]; intros s.
  - cbn. unfold calls_of. cbn. lia.
  - rewrite run_cons_final, calls_of_cons.
    assert (0 <= calls_of is_GrowRNA ts) by (unfold calls_of; lia).
    destruct (Hone t s) as (H1 & H2 & H3).
    destruct (outcome (call t s)).
    + destruct (IH (final (call t s))) as (I1 & I2 & I3).
      rewrite I1, I2, H1, H2. lia.
    + rewrite H1, H2. lia.
Qed.

(** X13.  Paused and Backtracked are never left.  In a run that starts
    from a valid Paused or Backtracked object and in which every transition
    returns, every transition is a [Backtrack] or a [GrowRNA]; the object
    ends Paused or Backtracked, neither Pre- nor Post-translocated, and
    ends Backtracked if it started Backtracked or the run holds a
    [Backtrack]. *)
Theorem pause_is_never_left ts :
  forall s,
    valid s ->
    paused s = true \/ backtracked s = true ->
    outcome (run ts s) = Return tt ->
    Forall (fun t => t = T_Backtrack \/ t = T_GrowRNA) ts
    /\ (paused (final (run ts s)) = true
        \/ backtracked (final (run ts s)) = true)
    /\ pre_translocated (final (run ts s)) = false
    /\ post_translocated (final (run ts s)) = false
    /\ (backtracked s = true \/ In T_Backtrack ts ->
        backtracked (final (run ts s)) = true).
Proof.
  induction ts as [|t ts IH]; intros s Hv Hpb H.
  - pose proof (valid_modes s Hv) as Hm. unfold modes_set in Hm.
    cbn [run ret final].
    split; [constructor|]. split; [exact Hpb|].
    destruct (pre_translocated s), (post_translocated s), (paused s),
      (backtracked s), Hpb; cbn in Hm; try discriminate; try lia;
      (split; [reflexivity|]); (split; [reflexivity|]);
      intros [Hb|[]]; congruence.
  - destruct (run_cons_returns t ts s H) as (Hc & Hr).
    apply call_returns in Hc. destruct Hc as (_ & Hs & Hl & Hs').
    rewrite Hr in H |- *.
    assert (Ht : (t = T_Backtrack \/ t = T_GrowRNA)
                 /\ (paused (effect t s) = true
                     \/ backtracked (effect t s) = true)
                 /\ (backtracked s = true \/ t = T_Backtrack ->
                     backtracked (effect t s) = true)).
    { apply sane_true_iff in Hs, Hs'.
      destruct Hs as (Hm & _). destruct Hs' as (Hm' & _).
      unfold modes_set in Hm, Hm'.
      destruct s as [n pre post pa bt i d sc f m].
      cbn in Hpb, Hm.
      destruct t; cbn in Hl, Hm' |- *;
        destruct pre, post, pa, bt, Hpb; cbn in Hl, Hm, Hm' |- *;
        try discriminate; try lia;
        (split; [auto|]); (split; [auto|]);
        intros [Hb|Hb]; congruence. }
    destruct Ht as (Ht & Hpb' & Hbt').
    destruct (IH (effect t s) (proj2 (valid_sane _) Hs') Hpb' H)
      as (I1 & I2 & I3 & I4 & I5).
    split; [constructor; assumption|].
    split; [exact I2|]. split; [exact I3|]. split; [exact I4|].
    intros [Hb | [Hb | Hin]].
    + apply I5. left. apply Hbt'. left. exact Hb.
    + apply I5. left. apply Hbt'. right. exact Hb.
    + apply I5. right. exact Hin.
Qed.

Lemma pause_is_never_left_witness :
  pre_translocated
    (final (run [T_GrowRNA; T_Backtrack; T_GrowRNA] (pausing iRNAP0))) = false
  /\ backtracked
       (final (run [T_GrowRNA; T_Backtrack; T_GrowRNA] (pausing iRNAP0)))
     = true.
Proof.
  assert (Hv : valid (pausing iRNAP0)) by reflexivity.
  pose proof (pause_is_never_left [T_GrowRNA; T_Backtrack; T_GrowRNA]
                (pausing iRNAP0) Hv (or_introl eq_refl) eq_refl) as H.
  split; [exact (proj1 (proj2 (proj2 H)))|].
  apply (proj2 (proj2 (proj2 (proj2 H)))).
  right. right. left. reflexivity.
Defined.

End RunInvariants.

(** ** Growing the transcript *)

Section Growing.

(** X14.  A [GrowRNA] that returns has raised the transcript length,
    [iplus1_site] and [scrunched_DNA_size] by exactly 1 each.  The duplex
    has not shrunk and is at most [max_duplex_length] afterwards: it is
    either the new transcript length or what it was.  The free 5' end has
    grown by 1 or not at all. *)
Theorem GrowRNA_monotone s :
  outcome (GrowRNA s) = Return tt ->
  RNA_length (final (GrowRNA s)) = RNA_length s + 1
  /\ iplus1_site (final (GrowRNA s)) = iplus1_site s + 1
  /\ scrunched_DNA_size (final (GrowRNA s)) = scrunched_DNA_size s + 1
  /\ RNADNA_duplex_length s <= RNADNA_duplex_length (final (GrowRNA s))
     <= __max_duplex_length s
  /\ (RNADNA_duplex_length (final (GrowRNA s)) = RNA_length s + 1
      \/ RNADNA_duplex_length (final (GrowRNA s)) = RNADNA_duplex_length s)
  /\ free_5prime_RNA_length s <= free_5prime_RNA_length (final (GrowRNA s))
     <= free_5prime_RNA_length s + 1.
Proof.
  intros H. apply (call_returns T_GrowRNA) in H.
  destruct H as (E & Hs & _ & Hs').
  change (call T_GrowRNA s) with (GrowRNA s) in E. rewrite E.
  cbn [final effect] in *.
  apply sane_true_iff in Hs, Hs'.
  destruct s as [n pre post pa bt i d sc f m].
  unfold growing, new_duplex, modes_set in *. cbn in *.
  destruct (Z.leb_spec (n + 1) m);
    match goal with
    | H : context [?a =? m] |- _ => destruct (Z.eqb_spec a m)
    end; lia.
Qed.

Lemma GrowRNA_monotone_witness :
  RNADNA_duplex_length (final (GrowRNA iRNAP0)) = RNA_length iRNAP0 + 1
  \/ RNADNA_duplex_length (final (GrowRNA iRNAP0)) =
     RNADNA_duplex_length iRNAP0.
Proof.
  exact (proj1 (proj2 (proj2 (proj2 (proj2
           (GrowRNA_monotone iRNAP0 eq_refl)))))).
Defined.

(** X15.  From a valid state [GrowRNA] either returns or raises
    [AssertionError] from its closing check, and the integers alone decide
    which.  While the new transcript stays below [max_duplex_length] it
    returns exactly when there is no positive free 5' end.  The step that
    brings the transcript to [max_duplex_length] returns only from a
    negative free 5' end, so never from a free end of 0.  Beyond that, with
    the duplex at [max_duplex_length] it returns unless the free end is 0
    over a duplex shorter than the transcript, and with any other duplex
    exactly when there is no positive free end. *)
Theorem GrowRNA_returns_iff s :
  valid s ->
  (outcome (GrowRNA s) = Return tt
   \/ outcome (GrowRNA s) = Raise AssertionError)
  /\ (outcome (GrowRNA s) = Return tt <->
      RNA_length s + 1 < __max_duplex_length s
      /\ free_5prime_RNA_length s <= 0
      \/ RNA_length s + 1 = __max_duplex_length s
         /\ free_5prime_RNA_length s < 0
      \/ __max_duplex_length s < RNA_length s + 1
         /\ RNADNA_duplex_length s = __max_duplex_length s
         /\ (free_5prime_RNA_length s <> 0
             \/ RNA_length s = RNADNA_duplex_length s)
      \/ __max_duplex_length s < RNA_length s + 1
         /\ RNADNA_duplex_length s <> __max_duplex_length s
         /\ free_5prime_RNA_length s <= 0).
Proof.
  intros Hv. apply valid_sane in Hv.
  rewrite GrowRNA_eq, Hv, SanityCheck_sane.
  assert (Hiff : sane (growing s) = true <->
      RNA_length s + 1 < __max_duplex_length s
      /\ free_5prime_RNA_length s <= 0
      \/ RNA_length s + 1 = __max_duplex_length s
         /\ free_5prime_RNA_length s < 0
      \/ __max_duplex_length s < RNA_length s + 1
         /\ RNADNA_duplex_length s = __max_duplex_length s
         /\ (free_5prime_RNA_length s <> 0
             \/ RNA_length s = RNADNA_duplex_length s)
      \/ __max_duplex_length s < RNA_length s + 1
         /\ RNADNA_duplex_length s <> __max_duplex_length s
         /\ free_5prime_RNA_length s <= 0).
  { apply sane_true_iff in Hv. rewrite sane_true_iff.
    destruct s as [n pre post pa bt i d sc f m].
    unfold growing, new_duplex, modes_set in *. cbn in *.
    destruct (Z.leb_spec (n + 1) m);
      match goal with
      | |- context [?a =? m] => destruct (Z.eqb_spec a m)
      end; lia. }
  destruct (sane (growing s)); cbn.
  - split; [left; reflexivity|]. split; [intros _; apply Hiff|]; reflexivity.
  - split; [right; reflexivity|]. split; [discriminate|].
    intros H. apply Hiff in H. discriminate.
Qed.

Lemma GrowRNA_returns_iff_witness :
  valid (mk_iRNAP 10 true false false false 10 10 8 0 10)
  /\ outcome (GrowRNA (mk_iRNAP 10 true false false false 10 10 8 0 10)) =
     Return tt.
Proof.
  assert (Hv : valid (mk_iRNAP 10 true false false false 10 10 8 0 10))
    by reflexivity.
  split; [exact Hv|].
  apply (proj2 (proj2 (GrowRNA_returns_iff _ Hv))).
  right. right. left. cbn. lia.
Defined.

Lemma GrowRNA_below s :
  valid s ->
  free_5prime_RNA_length s <= 0 ->
  RNA_length s + 1 < __max_duplex_length s ->
  call T_GrowRNA s =
  mkRes (Return tt)
    (mk_iRNAP (RNA_length s + 1) (pre_translocated s) (post_translocated s)
       (paused s) (backtracked s) (iplus1_site s + 1) (RNA_length s + 1)
       (scrunched_DNA_size s + 1) (free_5prime_RNA_length s)
       (__max_duplex_length s)) [].
Proof.
  intros Hv Hf Hn. apply valid_sane in Hv.
  rewrite (call_sane_returns T_GrowRNA s Hv (sane_legal_GrowRNA s Hv)
             (sane_growing_below s Hv Hf Hn)).
  cbn [effect]. unfold growing, new_duplex.
  destruct (Z.leb_spec (RNA_length s + 1) (__max_duplex_length s)); [|lia].
  destruct (Z.eqb_spec (RNA_length s + 1) (__max_duplex_length s)); [lia|].
  reflexivity.
Qed.

(** X16.  Below saturation growth never fails: from a valid state with no
    positive free 5' end, [k + 1] calls of [GrowRNA] in a row all return as
    long as the transcript stays below [max_duplex_length].  They raise the
    transcript length, [iplus1_site] and [scrunched_DNA_size] by [k + 1],
    make the duplex as long as the transcript, whatever it was before, and
    leave the mode and the free 5' end alone. *)
Theorem GrowRNA_repeated k :
  forall s,
    valid s ->
    free_5prime_RNA_length s <= 0 ->
    RNA_length s + Z.of_nat (S k) < __max_duplex_length s ->
    run (repeat T_GrowRNA (S k)) s =
    mkRes (Return tt)
      (mk_iRNAP (RNA_length s + Z.of_nat (S k))
         (pre_translocated s) (post_translocated s) (paused s)
         (backtracked s)
         (iplus1_site s + Z.of_nat (S k))
         (RNA_length s + Z.of_nat (S k))
         (scrunched_DNA_size s + Z.of_nat (S k))
         (free_5prime_RNA_length s)
         (__max_duplex_length s)) [].
Proof.
  induction k as [|k IH]; intros s Hv Hf Hn.
  - cbn [repeat run].
    rewrite (bind_returned (call T_GrowRNA) _ s tt _
               (GrowRNA_below s Hv Hf ltac:(lia))).
    reflexivity.
  - change (repeat T_GrowRNA (S (S k)))
      with (T_GrowRNA :: repeat T_GrowRNA (S k)).
    cbn [run].
    pose proof (GrowRNA_below s Hv Hf ltac:(lia)) as E.
    rewrite (bind_returned (call T_GrowRNA) _ s tt _ E).
    assert (Hv' : valid (final (call T_GrowRNA s))).
    { assert (Hr : outcome (call T_GrowRNA s) = Return tt)
        by (rewrite E; reflexivity).
      apply call_returns in Hr. destruct Hr as (E' & _ & _ & Hs').
      rewrite E'. apply valid_sane. exact Hs'. }
    rewrite E in Hv'. cbn [final] in Hv'.
    rewrite (IH _ Hv').
    + cbn [RNA_length iplus1_site RNADNA_duplex_length scrunched_DNA_size
           free_5prime_RNA_length __max_duplex_length pre_translocated
           post_translocated paused backtracked].
      f_equal. f_equal; lia.
    + exact Hf.
    + cbn [RNA_length __max_duplex_length]. lia.
Qed.

Lemma GrowRNA_repeated_witness :
  run (repeat T_GrowRNA 7) iRNAP0 =
  mkRes (Return tt) (mk_iRNAP 9 true false false false 9 9 7 0 10) [].
Proof.
  apply (GrowRNA_repeated 6 iRNAP0).
  - reflexivity.
  - cbn. lia.
  - cbn. lia.
Defined.

(** X17.  The default object never reaches saturation.  In every state
    that a run of transitions from the default object reaches with all of
    them returned, the free 5' end is still 0, the transcript is at most 9
    long and the duplex no longer than it, [max_duplex_length] is 10, and
    [iplus1_site] is [scrunched_DNA_size + 2]; such a run holds at most
    seven [GrowRNA] calls. *)
Theorem default_never_saturates ts :
  outcome (run ts iRNAP0) = Return tt ->
  free_5prime_RNA_length (final (run ts iRNAP0)) = 0
  /\ RNA_length (final (run ts iRNAP0)) <= 9
  /\ RNADNA_duplex_length (final (run ts iRNAP0))
     <= RNA_length (final (run ts iRNAP0))
  /\ __max_duplex_length (final (run ts iRNAP0)) = 10
  /\ iplus1_site (final (run ts iRNAP0))
     = scrunched_DNA_size (final (run ts iRNAP0)) + 2
  /\ calls_of is_GrowRNA ts <= 7.
Proof.
  assert (Hgen : forall ts s,
    sane s = true ->
    free_5prime_RNA_length s = 0 -> __max_duplex_length s = 10 ->
    RNA_length s <= 9 ->
    outcome (run ts s) = Return tt ->
    sane (final (run ts s)) = true
    /\ free_5prime_RNA_length (final (run ts s)) = 0
    /\ __max_duplex_length (final (run ts s)) = 10
    /\ RNA_length (final (run ts s)) <= 9
    /\ iplus1_site (final (run ts s)) - scrunched_DNA_size (final (run ts s))
       = iplus1_site s - scrunched_DNA_size s
    /\ RNA_length (final (run ts s)) = RNA_length s + calls_of is_GrowRNA ts).
  { clear ts. induction ts as [|t ts IH]; intros s Hs Hf Hm Hn H.
    - cbn. unfold calls_of. cbn. repeat split; try assumption; lia.
    - destruct (run_cons_returns t ts s H) as (Hc & Hr).
      apply call_returns in Hc. destruct Hc as (_ & _ & _ & Hs').
      rewrite Hr in H |- *.
      assert (Hstep :
        free_5prime_RNA_length (effect t s) = 0
        /\ __max_duplex_length (effect t s) = 10
        /\ RNA_length (effect t s) <= 9
        /\ iplus1_site (effect t s) - scrunched_DNA_size (effect t s)
           = iplus1_site s - scrunched_DNA_size s
        /\ RNA_length (effect t s)
           = RNA_length s + (if is_GrowRNA t then 1 else 0)).
      { apply sane_true_iff in Hs, Hs'.
        destruct s as [n pre post pa bt i d sc f m].
        cbn in Hf, Hm, Hn. subst f m.
        destruct t; unfold effect, backtracking, growing, new_duplex,
          modes_set in *; cbn in *; try lia.
        clear H Hr. revert Hs'.
        destruct (Z.leb_spec (n + 1) 10); [|lia].
        destruct (Z.eqb_spec (n + 1) 10); lia. }
      destruct Hstep as (Hf' & Hm' & Hn' & Hd' & Hr').
      destruct (IH _ Hs' Hf' Hm' Hn' H) as (I1 & I2 & I3 & I4 & I5 & I6).
      rewrite calls_of_cons.
      repeat split; try assumption; lia. }
  intros H.
  destruct (Hgen ts iRNAP0 eq_refl eq_refl eq_refl ltac:(cbn; lia) H)
    as (I1 & I2 & I3 & I4 & I5 & I6).
  apply sane_true_iff in I1.
  cbn [iplus1_site scrunched_DNA_size RNA_length iRNAP0] in I5, I6.
  repeat split; try assumption; lia.
Qed.

Lemma default_never_saturates_witness :
  RNA_length (final (run main_transitions iRNAP0)) <= 9.
Proof.
  exact (proj1 (proj2 (default_never_saturates main_transitions eq_refl))).
Defined.

End Growing.


(** ** Where the dinucleotide lookup succeeds *)

Section Dinucleotide.

Lemma get_below its :
  forall k, (k < String.length its)%nat -> exists c, String.get k its = Some c.
Proof.
  induction its as [|a its IH]; intros k Hk; cbn in Hk; [lia|].
  destruct k as [|k]; cbn.
  - exists a. reflexivity.
  - apply IH. lia.
Qed.

Lemma substring_two its :
  forall k a b,
    String.get k its = Some a -> String.get (S k) its = Some b ->
    substring k 2 its = String a (String b EmptyString).
Proof.
  induction its as [|c its IH]; intros k a b Ha Hb; [discriminate Ha|].
  destruct k as [|k].
  - cbn in Ha, Hb. injection Ha as ->.
    destruct its as [|c' its']; [discriminate Hb|].
    cbn in Hb. injection Hb as ->. cbn. destruct its'; reflexivity.
  - cbn in Ha. change (String.get (S (S k)) (String c its))
      with (String.get (S k) its) in Hb.
    cbn [substring]. apply IH; assumption.
Qed.

Lemma str_index_inside its i :
  - Z.of_nat (String.length its) <= i < Z.of_nat (String.length its) ->
  exists c,
    String.get (Z.to_nat (i mod Z.of_nat (String.length its))) its = Some c
    /\ str_index its i = Some (String c EmptyString).
Proof.
  intros Hi. set (n := Z.of_nat (String.length its)) in *.
  assert (Hmod : i mod n = if i <? 0 then i + n else i).
  { destruct (Z.ltb_spec i 0).
    - rewrite <- (Z.mod_add i 1 n) by lia. rewrite Z.mul_1_l.
      apply Z.mod_small. lia.
    - apply Z.mod_small. lia. }
  unfold str_index. fold n. rewrite <- Hmod.
  assert (Hr : 0 <= i mod n < n) by (apply Z.mod_pos_bound; lia).
  destruct (Z.ltb_spec (i mod n) 0); [lia|].
  destruct (Z.leb_spec n (i mod n)); [lia|]. cbn [orb].
  destruct (get_below its (Z.to_nat (i mod n))) as (c & Hc); [lia|].
  exists c. rewrite Hc. split; reflexivity.
Qed.

Lemma str_index_outside its i :
  i < - Z.of_nat (String.length its) \/ Z.of_nat (String.length its) <= i ->
  str_index its i = None.
Proof.
  intros Hi. unfold str_index.
  destruct (Z.ltb_spec i 0);
    match goal with
    | |- context [?a <? 0] => destruct (Z.ltb_spec a 0)
    end; try reflexivity; try lia;
    match goal with
    | |- context [?n <=? ?a] => destruct (Z.leb_spec n a)
    end; try reflexivity; lia.
Qed.

(** X18.  [GetActiveSiteDinucleotide] never changes the object and never
    prints.  On a sequence of [n] characters it returns exactly when
    [1 - n <= iplus1_site <= n - 1], and raises [IndexError] otherwise.
    What it returns are the characters at the positions [iplus1_site - 1]
    and [iplus1_site], each taken modulo [n]: for [iplus1_site] from 1 on
    that is the two-character substring starting at [iplus1_site - 1];
    for [iplus1_site] at 0 or below the positions are counted from the end
    of the sequence. *)
Theorem GetActiveSiteDinucleotide_domain its s :
  (1 - Z.of_nat (String.length its) <= iplus1_site s
     <= Z.of_nat (String.length its) - 1 ->
   exists a b,
     GetActiveSiteDinucleotide its s =
       mkRes (Return (String a (String b EmptyString))) s []
     /\ String.get
          (Z.to_nat ((iplus1_site s - 1) mod Z.of_nat (String.length its)))
          its = Some a
     /\ String.get
          (Z.to_nat (iplus1_site s mod Z.of_nat (String.length its)))
          its = Some b)
  /\ (1 <= iplus1_site s <= Z.of_nat (String.length its) - 1 ->
      GetActiveSiteDinucleotide its s =
        mkRes (Return (substring (Z.to_nat (iplus1_site s - 1)) 2 its)) s [])
  /\ (iplus1_site s < 1 - Z.of_nat (String.length its)
      \/ Z.of_nat (String.length its) - 1 < iplus1_site s ->
      GetActiveSiteDinucleotide its s = mkRes (Raise IndexError) s []).
Proof.
  set (n := Z.of_nat (String.length its)).
  assert (Hin : 1 - n <= iplus1_site s <= n - 1 ->
    exists a b,
      GetActiveSiteDinucleotide its s =
        mkRes (Return (String a (String b EmptyString))) s []
      /\ String.get (Z.to_nat ((iplus1_site s - 1) mod n)) its = Some a
      /\ String.get (Z.to_nat (iplus1_site s mod n)) its = Some b).
  { intros Hi.
    destruct (str_index_inside its (iplus1_site s - 1)) as (a & Ha & Ea);
      [fold n; lia|].
    destruct (str_index_inside its (iplus1_site s)) as (b & Hb & Eb);
      [fold n; lia|].
    exists a, b. split; [|split; assumption].
    unfold GetActiveSiteDinucleotide, bind, attr, getitem. cbn.
    rewrite Ea. cbn. rewrite Eb. reflexivity. }
  split; [exact Hin|]. split.
  - intros Hi. destruct Hin as (a & b & E & Ha & Hb); [lia|].
    rewrite E. rewrite Z.mod_small in Ha, Hb by (fold n; lia).
    replace (Z.to_nat (iplus1_site s))
      with (S (Z.to_nat (iplus1_site s - 1))) in Hb by lia.
    rewrite (substring_two its _ a b Ha Hb). reflexivity.
  - intros Hi.
    unfold GetActiveSiteDinucleotide, bind, attr, getitem. cbn.
    destruct (str_index its (iplus1_site s - 1)) as [a|] eqn:Ea; cbn.
    + rewrite str_index_outside; [reflexivity|].
      destruct Hi as [Hi|Hi]; [|right; fold n; lia].
      rewrite str_index_outside in Ea; [discriminate|]. left. fold n. lia.
    + reflexivity.
Qed.

Lemma GetActiveSiteDinucleotide_domain_witness :
  GetActiveSiteDinucleotide "ATGC" iRNAP0 =
    mkRes (Return (substring (Z.to_nat (iplus1_site iRNAP0 - 1)) 2 "ATGC"))
      iRNAP0 []
  /\ GetActiveSiteDinucleotide "ATGC" (set_iplus1_site (-4) iRNAP0) =
     mkRes (Raise IndexError) (set_iplus1_site (-4) iRNAP0) [].
Proof.
  split.
  - apply (proj1 (proj2 (GetActiveSiteDinucleotide_domain "ATGC" iRNAP0))).
    cbn. lia.
  - apply (proj2 (proj2 (GetActiveSiteDinucleotide_domain "ATGC"
                           (set_iplus1_site (-4) iRNAP0)))).
    left. cbn. lia.
Defined.

End Dinucleotide.

(** ** The rendering *)

Section Rendering.

Lemma append_assoc (a b c : string) :
  (a ++ (b ++ c))%string = ((a ++ b) ++ c)%string.
Proof.
  induction a as [|k a IH]; cbn; [reflexivity|]. rewrite IH. reflexivity.
Qed.

Lemma append_nil_r (a : string) : (a ++ "")%string = a.
Proof.
  induction a as [|k a IH]; cbn; [reflexivity|]. rewrite IH. reflexivity.
Qed.

Lemma append_inj_l p :
  forall x y, (p ++ x)%string = (p ++ y)%string -> x = y.
Proof.
  induction p as [|c p IH]; intros x y H; [exact H|].
  cbn in H. injection H as H. apply IH. exact H.
Qed.

(** Two strings free of [c], each followed by [c], split a text at the same
    place. *)
Lemma lacks_split c u :
  forall u' x x',
    lacks c u -> lacks c u' ->
    (u ++ String c x)%string = (u' ++ String c x')%string ->
    u = u' /\ x = x'.
Proof.
  induction u as [|a u IH]; intros u' x x' Hu Hu' H.
  - destruct u' as [|a' u']; cbn in H.
    + injection H as H. split; [reflexivity|exact H].
    + injection H as Hc _. destruct Hu' as (Hn & _). congruence.
  - destruct u' as [|a' u']; cbn in H.
    + injection H as Hc _. destruct Hu as (Hn & _). congruence.
    + injection H as Ha H. destruct Hu as (_ & Hu). destruct Hu' as (_ & Hu').
      destruct (IH u' x x' Hu Hu' H) as (E1 & E2).
      split; [congruence|exact E2].
Qed.

Lemma string_of_uint_lacks_NL d : lacks NL (NilEmpty.string_of_uint d).
Proof.
  induction d; cbn; try exact I; (split; [discriminate|assumption]).
Qed.

Lemma str_of_int_lacks_NL z : lacks NL (str_of_int z).
Proof.
  assert (Hu : forall d, lacks NL (NilZero.string_of_uint d)).
  { intros d. destruct d; try apply string_of_uint_lacks_NL.
    cbn. split; [discriminate|exact I]. }
  unfold str_of_int. destruct (Z.to_int z) as [d|d]; cbn [NilZero.string_of_int].
  - apply Hu.
  - split; [discriminate|apply Hu].
Qed.

Lemma to_uint_not_Nil p : Pos.to_uint p <> Decimal.Nil.
Proof.
  intros H. pose proof (DecimalPos.Unsigned.of_to p) as E.
  rewrite H in E. discriminate E.
Qed.

Lemma str_of_int_inj a b : str_of_int a = str_of_int b -> a = b.
Proof.
  intros H. unfold str_of_int in H.
  assert (Hn : forall z, Z.to_int z <> Decimal.Pos Decimal.Nil
                         /\ Z.to_int z <> Decimal.Neg Decimal.Nil).
  { intros [|p|p]; cbn; split; try discriminate;
      intros E; injection E as E; exact (to_uint_not_Nil p E). }
  pose proof (NilZero.isi _ (proj1 (Hn a)) (proj2 (Hn a))) as Ea.
  pose proof (NilZero.isi _ (proj1 (Hn b)) (proj2 (Hn b))) as Eb.
  rewrite H, Eb in Ea. injection Ea as Ea.
  rewrite <- (DecimalZ.of_to a), <- (DecimalZ.of_to b), Ea. reflexivity.
Qed.

Lemma format_repr_split a b c d a' b' c' d' x x' :
  (format_repr a b c d ++ x)%string = (format_repr a' b' c' d' ++ x')%string ->
  a = a' /\ b = b' /\ c = c' /\ d = d' /\ x = x'.
Proof.
  unfold format_repr. intros H.
  rewrite <- ?append_assoc in H; cbn [append] in H.
  repeat match type of H with
         | String ?k _ = String ?k _ => injection H as H
         end.
  rewrite <- ?append_assoc in H; cbn [append] in H.
  apply lacks_split in H; try apply str_of_int_lacks_NL.
  destruct H as (Ea & H). apply str_of_int_inj in Ea.
  repeat match type of H with
         | String ?k _ = String ?k _ => injection H as H
         end.
  rewrite <- ?append_assoc in H; cbn [append] in H.
  apply lacks_split in H; try apply str_of_int_lacks_NL.
  destruct H as (Eb & H). apply str_of_int_inj in Eb.
  repeat match type of H with
         | String ?k _ = String ?k _ => injection H as H
         end.
  rewrite <- ?append_assoc in H; cbn [append] in H.
  apply lacks_split in H; try apply str_of_int_lacks_NL.
  destruct H as (Ec & H). apply str_of_int_inj in Ec.
  repeat match type of H with
         | String ?k _ = String ?k _ => injection H as H
         end.
  rewrite <- ?append_assoc in H; cbn [append] in H.
  apply lacks_split in H; try apply str_of_int_lacks_NL.
  destruct H as (Ed & H). apply str_of_int_inj in Ed.
  injection H as H. repeat split; assumption.
Qed.

Lemma repr_text limit s :
  __repr__ limit s =
  if refused limit s then mkRes (Raise ValueError) s []
  else
    mkRes (Return (format_repr (RNA_length s) (RNADNA_duplex_length s)
                     (scrunched_DNA_size s) (iplus1_site s)
                   ++ mode_lines (pre_translocated s) (post_translocated s)
                        (paused s) (backtracked s))%string) s [].
Proof.
  assert (Hgen : forall (F : string) (pre post pa bt : bool),
    (let strs := F in
     let strs := if post
                 then (strs ++ "Is POST-translocated" ++ String NL "")%string
                 else strs in
     let strs := if pre
                 then (strs ++ "Is PRE-translocated" ++ String NL "")%string
                 else strs in
     let strs := if pa then (strs ++ "Is paused" ++ String NL "")%string
                 else strs in
     if bt then (strs ++ "Is backtracked" ++ String NL "")%string else strs)
    = (F ++ mode_lines pre post pa bt)%string).
  { intros F pre post pa bt. unfold mode_lines.
    destruct post, pre, pa, bt; cbv zeta; rewrite <- ?append_assoc;
      cbn [append]; rewrite ?append_nil_r; reflexivity. }
  unfold __repr__.
  repeat (rewrite bind_attr; cbv beta).
  unfold str_format, refused.
  destruct (too_long limit (RNA_length s)
            || too_long limit (RNADNA_duplex_length s)
            || too_long limit (scrunched_DNA_size s)
            || too_long limit (iplus1_site s)).
  - apply bind_raised. reflexivity.
  - rewrite (bind_returned _ _ s _ s eq_refl).
    rewrite <- Hgen.
    repeat (rewrite bind_attr; cbv beta). reflexivity.
Qed.

Lemma mode_lines_inj pre post pa bt pre' post' pa' bt' :
  mode_lines pre post pa bt = mode_lines pre' post' pa' bt' ->
  pre = pre' /\ post = post' /\ pa = pa' /\ bt = bt'.
Proof.
  destruct pre, post, pa, bt, pre', post', pa', bt'; cbn; intros H;
    try discriminate H; repeat split.
Qed.

Lemma too_long_no_limit z : too_long 0 z = false.
Proof.
  unfold too_long. rewrite Nat.ltb_irrefl, andb_false_r. reflexivity.
Qed.

(** X19.  [__repr__] never changes the object and never prints.  It raises
    [ValueError] exactly when the interpreter's limit on integer-to-text
    conversion refuses one of the four integers it formats (never when
    there is no limit) and returns a text otherwise; it raises nothing
    else.  The texts of two objects are equal if and only if the objects
    agree on the transcript length, the duplex length, the scrunched DNA
    size, [iplus1_site] and the four mode flags.  The free 5' end and
    [max_duplex_length] are not rendered. *)
Theorem repr_determines int_max_str_digits s s' :
  final (__repr__ int_max_str_digits s) = s
  /\ printed (__repr__ int_max_str_digits s) = []
  /\ (refused int_max_str_digits s = true ->
      outcome (__repr__ int_max_str_digits s) = Raise ValueError)
  /\ (refused int_max_str_digits s = false ->
      exists text, outcome (__repr__ int_max_str_digits s) = Return text)
  /\ refused 0 s = false
  /\ (forall text text',
        outcome (__repr__ int_max_str_digits s) = Return text ->
        outcome (__repr__ int_max_str_digits s') = Return text' ->
        (text = text' <->
         RNA_length s = RNA_length s'
         /\ RNADNA_duplex_length s = RNADNA_duplex_length s'
         /\ scrunched_DNA_size s = scrunched_DNA_size s'
         /\ iplus1_site s = iplus1_site s'
         /\ pre_translocated s = pre_translocated s'
         /\ post_translocated s = post_translocated s'
         /\ paused s = paused s'
         /\ backtracked s = backtracked s')).
Proof.
  rewrite !repr_text.
  split; [destruct (refused int_max_str_digits s); reflexivity|].
  split; [destruct (refused int_max_str_digits s); reflexivity|].
  split; [intros ->; reflexivity|].
  split; [intros ->; eexists; reflexivity|].
  split; [unfold refused; rewrite !too_long_no_limit; reflexivity|].
  intros text text'.
  destruct (refused int_max_str_digits s); [discriminate|].
  destruct (refused int_max_str_digits s'); [discriminate|].
  cbn [outcome]. intros Ht Ht'.
  assert (E : text = (format_repr (RNA_length s) (RNADNA_duplex_length s)
                        (scrunched_DNA_size s) (iplus1_site s)
                      ++ mode_lines (pre_translocated s)
                           (post_translocated s) (paused s)
                           (backtracked s))%string) by congruence.
  assert (E' : text' = (format_repr (RNA_length s') (RNADNA_duplex_length s')
                          (scrunched_DNA_size s') (iplus1_site s')
                        ++ mode_lines (pre_translocated s')
                             (post_translocated s') (paused s')
                             (backtracked s'))%string) by congruence.
  clear Ht Ht'. subst text text'. split.
  - intros H. apply format_repr_split in H.
    destruct H as (E1 & E2 & E3 & E4 & H).
    apply mode_lines_inj in H. destruct H as (F1 & F2 & F3 & F4).
    repeat split; assumption.
  - intros (E1 & E2 & E3 & E4 & F1 & F2 & F3 & F4).
    rewrite E1, E2, E3, E4, F1, F2, F3, F4. reflexivity.
Qed.

Lemma repr_determines_witness :
  outcome
    (__repr__ 700 (mk_iRNAP (10 ^ 700) true false false false 2 2 0 0 10))
  = Raise ValueError
  /\ exists text,
       outcome (__repr__ 700 (mk_iRNAP (10 ^ 700 - 1) true false false
                                false 2 2 0 0 (10 ^ 700)))
       = Return text.
Proof.
  split.
  - apply (proj1 (proj2 (proj2 (repr_determines 700
             (mk_iRNAP (10 ^ 700) true false false false 2 2 0 0 10)
             iRNAP0)))).
    vm_compute. reflexivity.
  - apply (proj1 (proj2 (proj2 (proj2 (repr_determines 700
             (mk_iRNAP (10 ^ 700 - 1) true false false false 2 2 0 0
                (10 ^ 700))
             iRNAP0))))).
    vm_compute. reflexivity.
Defined.

End Rendering.

(** ** Mode and growth together *)

Section ModeAndGrowth.

(** X20.  Growth and the translocation register do not depend on each
    other: when a [Translocate], [ReverseTranslocate] or [Pause] followed
    by a [GrowRNA] both return, the same two calls in the other order both
    return as well and leave the same object. *)
Theorem GrowRNA_commutes t s :
  t <> T_Backtrack ->
  outcome (run [t; T_GrowRNA] s) = Return tt ->
  run [T_GrowRNA; t] s = run [t; T_GrowRNA] s
  /\ run [t; T_GrowRNA] s = mkRes (Return tt) (growing (effect t s)) [].
Proof.
  intros Hb H.
  destruct (run_cons_returns t [T_GrowRNA] s H) as (Hc & Hr).
  rewrite Hr in H.
  destruct (run_cons_returns T_GrowRNA [] _ H) as (Hg & Hr').
  apply call_returns in Hc. destruct Hc as (_ & Hs & Hl & Hs1).
  apply call_returns in Hg. destruct Hg as (_ & _ & _ & Hs2).
  cbn [effect] in Hs2.
  assert (E : run [t; T_GrowRNA] s
              = mkRes (Return tt) (growing (effect t s)) []).
  { rewrite Hr, Hr'. reflexivity. }
  split; [|exact E].
  assert (Hng : t = T_GrowRNA \/ t <> T_GrowRNA)
    by (destruct t; (left; reflexivity) || (right; discriminate)).
  destruct Hng as [-> | Hng]; [reflexivity|].
  rewrite E.
  assert (Hcomm : effect t (growing s) = growing (effect t s)).
  { destruct s; destruct t; try congruence; reflexivity. }
  assert (Hm : (modes_set s <=? 1)%nat = true).
  { apply sane_true_iff in Hs. apply Nat.leb_le. tauto. }
  assert (Hm2 : (modes_set (growing (effect t s)) <=? 1)%nat = true).
  { apply sane_true_iff in Hs2. apply Nat.leb_le. tauto. }
  assert (Hsg : sane (growing s) = true).
  { rewrite <- Hs2. apply sane_same_integers;
      try (destruct s; destruct t; try congruence; reflexivity).
    transitivity true; [exact Hm|symmetry; exact Hm2]. }
  assert (Hl' : legal t (growing s) = true).
  { rewrite <- Hl. destruct s; destruct t; reflexivity. }
  assert (E1 : call T_GrowRNA s = mkRes (Return tt) (growing s) []).
  { apply (call_sane_returns T_GrowRNA s Hs (sane_legal_GrowRNA s Hs) Hsg). }
  assert (E2 : call t (growing s)
               = mkRes (Return tt) (growing (effect t s)) []).
  { rewrite <- Hcomm. apply call_sane_returns; try assumption.
    rewrite Hcomm. exact Hs2. }
  cbn [run].
  rewrite (bind_returned (call T_GrowRNA) _ s tt _ E1).
  rewrite (bind_returned (call t) _ _ tt _ E2).
  reflexivity.
Qed.

Lemma GrowRNA_commutes_witness :
  run [T_GrowRNA; T_Pause] iRNAP0 = run [T_Pause; T_GrowRNA] iRNAP0.
Proof.
  apply (GrowRNA_commutes T_Pause iRNAP0); [discriminate|reflexivity].
Defined.

(** X21.  A [Translocate], [ReverseTranslocate], [Pause] or [Backtrack]
    that returns leaves exactly one mode flag set, its own:
    [post_translocated], [pre_translocated], [paused] and [backtracked]
    in that order.  The state without any flag, which the constructor
    accepts, is therefore never entered by a transition. *)
Theorem transition_sets_mode t s :
  t <> T_GrowRNA ->
  outcome (call t s) = Return tt ->
  modes_set (final (call t s)) = 1%nat
  /\ match t with
     | T_Translocate => post_translocated (final (call t s)) = true
     | T_ReverseTranslocate => pre_translocated (final (call t s)) = true
     | T_Pause => paused (final (call t s)) = true
     | _ => backtracked (final (call t s)) = true
     end.
Proof.
  intros Hg H. apply call_returns in H. destruct H as (E & _ & _ & Hs').
  rewrite E. cbn [final]. apply sane_true_iff in Hs'.
  destruct Hs' as (Hm & _). unfold modes_set in *.
  destruct s as [n pre post pa bt i d sc f m].
  destruct t; try congruence; cbn in Hm |- *;
    (split; [|reflexivity]).
  - destruct pa, bt; cbn in Hm |- *; lia.
  - destruct pa, bt; cbn in Hm |- *; lia.
  - destruct post, bt; cbn in Hm |- *; lia.
  - destruct pre, post; cbn in Hm |- *; lia.
Qed.

Lemma transition_sets_mode_witness :
  modes_set
    (final (call T_Translocate (mk_iRNAP 2 false false false false 2 2 0 0 10)))
  = 1%nat.
Proof.
  apply (transition_sets_mode T_Translocate
           (mk_iRNAP 2 false false false false 2 2 0 0 10));
    [discriminate|reflexivity].
Defined.

End ModeAndGrowth.
